(** * Open-Linux-Setup: [Other/analyze_dependencies.py]

    A shallow embedding of the dependency report generator: the loop that
    builds the reverse dependency map of the explicitly installed packages,
    the keyword categorisation, the grouping by category and the loop that
    writes the report.

    Conventions.
    - A Python [str] is a [string], a sequence of 8-bit characters.  Package
      names and the output of [pacman]/[pactree] are ASCII (alpm package
      names are made of letters, digits and [@ . _ + -]); on ASCII text the
      functions [lower], [strip], [split], [contains] and the order
      [String.le] below are Python's [str.lower], [str.strip], [str.split],
      [in] and [<=].
    - [explicit_packages] is a Python [set]: a [gset string] for membership,
      together with the list in which the [for] loop happens to enumerate it
      (any permutation of its elements).
    - [dependency_map] and [categories] are Python dictionaries: association
      lists in insertion order, which is the order [dict.items()] and
      [dict.keys()] iterate in.
    - The two external commands are inputs: the set read from [pacman -Qeq]
      and a function giving the outcome of [pactree -r -u -d 1 pkg].
    - The report file is the list of the lines written to it, in order;
      [render] gives its text.  Progress messages on the console are not
      modelled. *)

From Stdlib Require Import Ascii.
From stdpp Require Import strings list sorting gmap pretty.

(** ** Python string primitives *)

Module Py.

(** [c.lower()] for one ASCII character. *)
Definition lower_char (c : ascii) : ascii :=
  let n := N_of_ascii c in
  if ((65 <=? n) && (n <=? 90))%N then ascii_of_N (n + 32) else c.

(** [s.lower()] *)
Fixpoint lower (s : string) : string :=
  match s with
  | EmptyString => EmptyString
  | String c s' => String (lower_char c) (lower s')
  end.

(** [s.startswith(p)] *)
Fixpoint startswith (s p : string) {struct p} : bool :=
  match p, s with
  | EmptyString, _ => true
  | String _ _, EmptyString => false
  | String a p', String b s' => bool_decide (a = b) && startswith s' p'
  end.

(** [sub in s] *)
Fixpoint contains (sub s : string) : bool :=
  startswith s sub ||
  match s with
  | EmptyString => false
  | String _ s' => contains sub s'
  end.

(** [c.isspace()] for one ASCII character: tab, line feed, vertical tab, form
    feed, carriage return, the four separators 28..31 and the blank. *)
Definition isspace (c : ascii) : bool :=
  let n := N_of_ascii c in
  ((9 <=? n) && (n <=? 13) || (28 <=? n) && (n <=? 32))%N.

(** [s.lstrip()], [s.rstrip()], [s.strip()] *)
Fixpoint lstrip (s : string) : string :=
  match s with
  | EmptyString => EmptyString
  | String c s' => if isspace c then lstrip s' else s
  end.

Fixpoint rstrip (s : string) : string :=
  match s with
  | EmptyString => EmptyString
  | String c s' =>
      match rstrip s' with
      | EmptyString => if isspace c then EmptyString else String c EmptyString
      | r => String c r
      end
  end.

Definition strip (s : string) : string := rstrip (lstrip s).

(** [s.split(sep)] for a one-character separator: never the empty list. *)
Fixpoint split (sep : ascii) (s : string) : list string :=
  match s with
  | EmptyString => [EmptyString]
  | String c s' =>
      if bool_decide (c = sep) then EmptyString :: split sep s'
      else match split sep s' with
           | [] => [String c EmptyString]
           | w :: ws => String c w :: ws
           end
  end.

(** [s.replace(a, b)] for single characters. *)
Fixpoint replace (a b : ascii) (s : string) : string :=
  match s with
  | EmptyString => EmptyString
  | String c s' => String (if bool_decide (c = a) then b else c) (replace a b s')
  end.

(** The line feed. *)
Definition newline : ascii := "010"%char.

(** [sorted(l)] on strings, and [sorted(set(l))]. *)
Definition sorted (l : list string) : list string := merge_sort String.le l.
Definition sorted_set (l : list string) : list string := sorted (remove_dups l).

(** Truth value of a string and of a list. *)
Definition truthy (s : string) : bool := negb (bool_decide (s = EmptyString)).
Definition nonempty {A} (l : list A) : bool :=
  match l with [] => false | _ => true end.

End Py.

(** ** Python dictionaries, in insertion order *)

Module Dict.
Section dict.
Context {K V : Type} `{EqDecision K}.

(** [d.get(k)] *)
Fixpoint get (k : K) (d : list (K * V)) : option V :=
  match d with
  | [] => None
  | (k', v) :: d' => if decide (k = k') then Some v else get k d'
  end.

(** [d[k] = v]: an existing key keeps its position, a new one goes last. *)
Fixpoint set (k : K) (v : V) (d : list (K * V)) : list (K * V) :=
  match d with
  | [] => [(k, v)]
  | (k', v') :: d' =>
      if decide (k = k') then (k', v) :: d' else (k', v') :: set k v d'
  end.

(** [list(d.keys())] *)
Definition keys (d : list (K * V)) : list K := d.*1.
End dict.
End Dict.

(** ** The categories *)

Inductive Category :=
  | PYTHON | PERL | DEVELOPMENT_TOOLS | BLUETOOTH | AUDIO | STORAGE | DESKTOP
  | KDE | GUI_LIBS | SECURITY | JAVA | VR | FILESYSTEM | SYSTEM | SYSTEM_INFO
  | ARCHIVE | OTHER.

(** The string the script uses for a category. *)
Definition cat_name (c : Category) : string :=
  match c with
  | PYTHON => "PYTHON" | PERL => "PERL"
  | DEVELOPMENT_TOOLS => "DEVELOPMENT_TOOLS" | BLUETOOTH => "BLUETOOTH"
  | AUDIO => "AUDIO" | STORAGE => "STORAGE" | DESKTOP => "DESKTOP"
  | KDE => "KDE" | GUI_LIBS => "GUI_LIBS" | SECURITY => "SECURITY"
  | JAVA => "JAVA" | VR => "VR" | FILESYSTEM => "FILESYSTEM"
  | SYSTEM => "SYSTEM" | SYSTEM_INFO => "SYSTEM_INFO" | ARCHIVE => "ARCHIVE"
  | OTHER => "OTHER"
  end.

Definition all_categories : list Category :=
  [PYTHON; PERL; DEVELOPMENT_TOOLS; BLUETOOTH; AUDIO; STORAGE; DESKTOP; KDE;
   GUI_LIBS; SECURITY; JAVA; VR; FILESYSTEM; SYSTEM; SYSTEM_INFO; ARCHIVE;
   OTHER].

(** [pkg in ['git', 'openssh', 'rsync', 'sudo', 'which', 'diffutils']] *)
Definition development_tools : list string :=
  ["git"; "openssh"; "rsync"; "sudo"; "which"; "diffutils"].

(** [categorize(pkg)], lines 99-133. *)
Definition categorize (pkg : string) : string :=
  if Py.contains "python" (Py.lower pkg) || Py.startswith pkg "python-" then
    "PYTHON"
  else if Py.contains "perl" (Py.lower pkg) then
    "PERL"
  else if bool_decide (pkg ∈ development_tools) then
    "DEVELOPMENT_TOOLS"
  else if Py.contains "bluez" (Py.lower pkg) then
    "BLUETOOTH"
  else if Py.contains "pipewire" (Py.lower pkg)
          || Py.contains "alsa" (Py.lower pkg) then
    "AUDIO"
  else if Py.contains "device-mapper" (Py.lower pkg)
          || Py.contains "cryptsetup" (Py.lower pkg) then
    "STORAGE"
  else if Py.contains "xdg" (Py.lower pkg)
          || Py.contains "desktop" (Py.lower pkg) then
    "DESKTOP"
  else if Py.contains "kde" (Py.lower pkg) || Py.contains "kio" (Py.lower pkg)
          || Py.contains "plasma" (Py.lower pkg) then
    "KDE"
  else if Py.contains "gtk" (Py.lower pkg) || Py.contains "qt" (Py.lower pkg) then
    "GUI_LIBS"
  else if Py.contains "gnome-keyring" (Py.lower pkg) then
    "SECURITY"
  else if Py.contains "jdk" (Py.lower pkg) || Py.contains "java" (Py.lower pkg) then
    "JAVA"
  else if Py.contains "openxr" (Py.lower pkg) then
    "VR"
  else if Py.contains "e2fsprogs" (Py.lower pkg)
          || Py.contains "dosfstools" (Py.lower pkg)
          || Py.contains "mtools" (Py.lower pkg) then
    "FILESYSTEM"
  else if Py.contains "systemd" (Py.lower pkg) then
    "SYSTEM"
  else if Py.contains "texinfo" (Py.lower pkg)
          || Py.contains "hwinfo" (Py.lower pkg) then
    "SYSTEM_INFO"
  else if Py.contains "unzip" (Py.lower pkg) then
    "ARCHIVE"
  else
    "OTHER".

(** [cat_order], lines 158-160. *)
Definition cat_order : list string :=
  ["PYTHON"; "PERL"; "DEVELOPMENT_TOOLS"; "BLUETOOTH"; "AUDIO";
   "STORAGE"; "DESKTOP"; "KDE"; "GUI_LIBS"; "SECURITY"; "JAVA";
   "VR"; "FILESYSTEM"; "SYSTEM"; "SYSTEM_INFO"; "ARCHIVE"; "OTHER"].

(** ** The rule table of the categorisation, as data *)

(** [any_of subs] holds of a name whose lower-case form contains one of
    [subs]. *)
Definition any_of (subs : list string) (pkg : string) : bool :=
  existsb (λ sub, Py.contains sub (Py.lower pkg)) subs.

Definition rule_table : list ((string → bool) * Category) :=
  [ (λ pkg, any_of ["python"] pkg || Py.startswith pkg "python-", PYTHON);
    (any_of ["perl"], PERL);
    (λ pkg, bool_decide (pkg ∈ development_tools), DEVELOPMENT_TOOLS);
    (any_of ["bluez"], BLUETOOTH);
    (any_of ["pipewire"; "alsa"], AUDIO);
    (any_of ["device-mapper"; "cryptsetup"], STORAGE);
    (any_of ["xdg"; "desktop"], DESKTOP);
    (any_of ["kde"; "kio"; "plasma"], KDE);
    (any_of ["gtk"; "qt"], GUI_LIBS);
    (any_of ["gnome-keyring"], SECURITY);
    (any_of ["jdk"; "java"], JAVA);
    (any_of ["openxr"], VR);
    (any_of ["e2fsprogs"; "dosfstools"; "mtools"], FILESYSTEM);
    (any_of ["systemd"], SYSTEM);
    (any_of ["texinfo"; "hwinfo"], SYSTEM_INFO);
    (any_of ["unzip"], ARCHIVE) ].

(** The category of the first rule that matches, [OTHER] when none does. *)
Fixpoint first_match (rules : list ((string → bool) * Category))
    (pkg : string) : Category :=
  match rules with
  | [] => OTHER
  | (matches, cat) :: rules' =>
      if matches pkg then cat else first_match rules' pkg
  end.

(** The rules after the third, on a name already in lower case. *)
Definition categorize_rest (low : string) : string :=
  if Py.contains "bluez" low then
    "BLUETOOTH"
  else if Py.contains "pipewire" low || Py.contains "alsa" low then
    "AUDIO"
  else if Py.contains "device-mapper" low || Py.contains "cryptsetup" low then
    "STORAGE"
  else if Py.contains "xdg" low || Py.contains "desktop" low then
    "DESKTOP"
  else if Py.contains "kde" low || Py.contains "kio" low
          || Py.contains "plasma" low then
    "KDE"
  else if Py.contains "gtk" low || Py.contains "qt" low then
    "GUI_LIBS"
  else if Py.contains "gnome-keyring" low then
    "SECURITY"
  else if Py.contains "jdk" low || Py.contains "java" low then
    "JAVA"
  else if Py.contains "openxr" low then
    "VR"
  else if Py.contains "e2fsprogs" low || Py.contains "dosfstools" low
          || Py.contains "mtools" low then
    "FILESYSTEM"
  else if Py.contains "systemd" low then
    "SYSTEM"
  else if Py.contains "texinfo" low || Py.contains "hwinfo" low then
    "SYSTEM_INFO"
  else if Py.contains "unzip" low then
    "ARCHIVE"
  else
    "OTHER".

(** ** Reading the explicit set (line 69) *)

(** [set(stdout.strip().split('\n'))], on the output of [pacman -Qeq]. *)
Definition read_explicit_packages (stdout : string) : gset string :=
  list_to_set (Py.split Py.newline (Py.strip stdout)).

(** ** Building the reverse dependency map (lines 72-94) *)

(** Outcome of [subprocess.run(['pactree', '-r', '-u', '-d', '1', pkg], ...)]:
    the process completes with an exit status and its standard output, or
    the call raises (the 5 second timeout, a missing executable, output that
    cannot be decoded). *)
Inductive run_outcome :=
  | Completed (returncode : Z) (stdout : string)
  | Raised.

(** The loop state: [dependency_map], and the packages [pactree] has been
    run on so far (oldest first). *)
Record analysis := Analysis {
  dependency_map : list (string * list string);
  queried : list string
}.

(** [dependency_map[pkg].append(depender)] on a [defaultdict(list)]. *)
Definition dict_append (pkg depender : string)
    (d : list (string * list string)) : list (string * list string) :=
  Dict.set pkg (default [] (Dict.get pkg d) ++ [depender]) d.

(** Lines 90-92, the body of [for depender in reverse_deps]. *)
Definition record_depender (pkg : string)
    (d : list (string * list string)) (depender : string) :=
  let depender := Py.strip depender in
  if Py.truthy depender && negb (bool_decide (depender = pkg)) then
    dict_append pkg depender d
  else d.

(** Lines 77-94, the body of [for pkg in explicit_packages]. *)
Definition analyze_package (pactree : string → run_outcome)
    (st : analysis) (pkg : string) : analysis :=
  if negb (Py.truthy pkg) then st
  else
    let d := dependency_map st in
    let q := queried st ++ [pkg] in
    match pactree pkg with
    | Completed returncode stdout =>
        if (returncode =? 0)%Z then
          let reverse_deps := tail (Py.split Py.newline (Py.strip stdout)) in
          Analysis (foldl (record_depender pkg) d reverse_deps) q
        else Analysis d q
    | Raised => Analysis d q
    end.

(** The whole loop, over the set enumerated as [order]. *)
Definition analyze (pactree : string → run_outcome) (order : list string)
    : analysis :=
  foldl (analyze_package pactree) (Analysis [] []) order.

Definition build_dependency_map (pactree : string → run_outcome)
    (order : list string) : list (string * list string) :=
  dependency_map (analyze pactree order).

(** ** Grouping by category (lines 136-142) *)

Definition group_dependency (explicit_packages : gset string)
    (categories : list (string * list (string * list string)))
    (item : string * list string) :=
  let '(dep, dependers) := item in
  let explicit_dependers := filter (λ d, d ∈ explicit_packages) dependers in
  if Py.nonempty explicit_dependers then
    let cat := categorize dep in
    Dict.set cat
      (Dict.set dep explicit_dependers (default [] (Dict.get cat categories)))
      categories
  else categories.

Definition build_categories (explicit_packages : gset string)
    (dm : list (string * list string))
    : list (string * list (string * list string)) :=
  foldl (group_dependency explicit_packages) [] dm.

(** ** Writing the report (lines 145-183) *)

(** What the script writes: the fixed comment block (lines 146-155), a
    section header with the size of the category (lines 166-168), a
    dependency with the number of its dependers (line 180), and one depender
    (line 183). *)
Inductive line :=
  | Preamble
  | SectionHeader (cat : string) (count : nat)
  | DependencyLine (dep : string) (count : nat)
  | DependerLine (depender : string).

(** Lines 172-183, the body of [for dep in sorted(categories[cat].keys())]. *)
Definition write_dependency (explicit_packages : gset string)
    (in_cat : list (string * list string)) (dep : string) : list line :=
  let all_dependers := Py.sorted_set (default [] (Dict.get dep in_cat)) in
  let dependers := filter (λ d, d ∈ explicit_packages) all_dependers in
  if Py.nonempty dependers then
    DependencyLine dep (length dependers) :: (DependerLine <$> dependers)
  else [].

(** Lines 163-183, the body of [for cat in cat_order]. *)
Definition write_category (explicit_packages : gset string)
    (categories : list (string * list (string * list string)))
    (cat : string) : list line :=
  match Dict.get cat categories with
  | None => []
  | Some in_cat =>
      if Py.nonempty in_cat then
        SectionHeader cat (length in_cat)
        :: (Py.sorted (Dict.keys in_cat)
              ≫= write_dependency explicit_packages in_cat)
      else []
  end.

Definition write_report (explicit_packages : gset string)
    (categories : list (string * list (string * list string))) : list line :=
  Preamble :: (cat_order ≫= write_category explicit_packages categories).

(** The script from line 72 on. *)
Definition report (explicit_packages : gset string)
    (pactree : string → run_outcome) (order : list string) : list line :=
  write_report explicit_packages
    (build_categories explicit_packages (build_dependency_map pactree order)).

(** The text of the file. *)
Definition nl : string := String Py.newline EmptyString.
Definition arrow : string :=
  String "226"%char (String "134"%char (String "146"%char EmptyString)).
Definition rule : string :=
  "# ============================================================================".

Definition preamble : list string :=
  ["# Explicitly Installed Packages That Are Also Dependencies";
   "# =========================================================";
   "# This file lists packages that you explicitly installed but are also";
   "# required as dependencies by other installed packages.";
   "# Packages are grouped by category, then by the dependency package.";
   "# Under each dependency, all packages that require it are listed.";
   "#";
   "# Note: These packages can be safely removed if you remove the packages";
   "# that depend on them, but they will be reinstalled as dependencies.";
   EmptyString].

Definition render_line (l : line) : string :=
  match l with
  | Preamble => String.concat EmptyString ((λ s, s +:+ nl) <$> preamble)
  | SectionHeader cat count =>
      nl +:+ rule +:+ nl
      +:+ "# " +:+ Py.replace "_" " " cat +:+ " (" +:+ pretty count
      +:+ " packages)" +:+ nl
      +:+ rule +:+ nl
  | DependencyLine dep count =>
      nl +:+ dep +:+ "                    # Required by " +:+ pretty count
      +:+ " package(s) (explicitly installed)" +:+ nl
  | DependerLine depender =>
      "  " +:+ arrow +:+ " " +:+ depender +:+ " (explicit)" +:+ nl
  end.

Definition render (f : list line) : string :=
  String.concat EmptyString (render_line <$> f).

(** ** The report, stated from the inputs

    The definitions below do not follow the control flow of the script; they
    say what each package contributes, and the theorems relate the script to
    them. *)

(** The lines the script reads for [pkg] at line 88: none when [pkg] is the
    empty string (no lookup is made), when the lookup raises or when it exits
    with a non-zero status. *)
Definition raw_dependers (pactree : string → run_outcome) (pkg : string)
    : list string :=
  if Py.truthy pkg then
    match pactree pkg with
    | Completed returncode stdout =>
        if (returncode =? 0)%Z then
          tail (Py.split Py.newline (Py.strip stdout))
        else []
    | Raised => []
    end
  else [].

(** Stripped, without the empty strings and without [pkg] itself. *)
Definition clean_dependers (pkg : string) (raw : list string) : list string :=
  filter (λ d, d ≠ EmptyString ∧ d ≠ pkg) (Py.strip <$> raw).

Definition kept_dependers (pactree : string → run_outcome) (pkg : string)
    : list string :=
  clean_dependers pkg (raw_dependers pactree pkg).

(** A dictionary entry for a non-empty list, nothing for the empty one. *)
Definition entry {A} (k : string) (l : list A) : list (string * list A) :=
  match l with [] => [] | _ => [(k, l)] end.

Definition some_nonempty {A} (l : list A) : option (list A) :=
  match l with [] => None | _ => Some l end.

(** What the loop of lines 76-94 leaves in [dependency_map] and in the list
    of packages looked up. *)
Definition entries (pactree : string → run_outcome) (order : list string)
    : list (string * list string) :=
  order ≫= λ pkg, entry pkg (kept_dependers pactree pkg).

Definition lookups (order : list string) : list string :=
  filter (λ pkg, pkg ≠ EmptyString) order.

(** The lookup of a package failed. *)
Definition lookup_failed (pactree : string → run_outcome) (pkg : string)
    : Prop :=
  match pactree pkg with
  | Completed returncode _ => returncode ≠ 0%Z
  | Raised => True
  end.

(** The dependers of [dep] in [dm] that are explicitly installed. *)
Definition explicit_dependers (explicit_packages : gset string)
    (dm : list (string * list string)) (dep : string) : list string :=
  filter (λ d, d ∈ explicit_packages) (default [] (Dict.get dep dm)).

(** The entries of [dm] that go to category [cat], in the order of [dm]. *)
Definition in_category (explicit_packages : gset string)
    (dm : list (string * list string)) (cat : string)
    : list (string * list string) :=
  dm ≫= λ '(dep, dependers),
    if decide (categorize dep = cat) then
      entry dep (filter (λ d, d ∈ explicit_packages) dependers)
    else [].

(** The dependencies listed under [cat], in report order. *)
Definition retained (explicit_packages : gset string)
    (dm : list (string * list string)) (cat : string) : list string :=
  Py.sorted (Dict.keys (in_category explicit_packages dm cat)).

(** The lines of one dependency and of one category. *)
Definition dependency_lines (explicit_packages : gset string)
    (dm : list (string * list string)) (dep : string) : list line :=
  let dependers := Py.sorted_set (explicit_dependers explicit_packages dm dep) in
  DependencyLine dep (length dependers) :: (DependerLine <$> dependers).

Definition section_lines (explicit_packages : gset string)
    (dm : list (string * list string)) (cat : string) : list line :=
  match retained explicit_packages dm cat with
  | [] => []
  | deps =>
      SectionHeader cat (length deps)
      :: (deps ≫= dependency_lines explicit_packages dm)
  end.

(** Alphabetical order without repetition. *)
Definition ascending (l : list string) : Prop :=
  StronglySorted (strict String.le) l.

(** ** The script with a single filtering step

    As [write_dependency], [write_category] and [write_report], without the
    filter of line 174: the dependers stored by line 142 are written as they
    are. *)
Definition write_dependency_once
    (in_cat : list (string * list string)) (dep : string) : list line :=
  let all_dependers := Py.sorted_set (default [] (Dict.get dep in_cat)) in
  let dependers := all_dependers in
  if Py.nonempty dependers then
    DependencyLine dep (length dependers) :: (DependerLine <$> dependers)
  else [].

Definition write_category_once
    (categories : list (string * list (string * list string)))
    (cat : string) : list line :=
  match Dict.get cat categories with
  | None => []
  | Some in_cat =>
      if Py.nonempty in_cat then
        SectionHeader cat (length in_cat)
        :: (Py.sorted (Dict.keys in_cat) ≫= write_dependency_once in_cat)
      else []
  end.

Definition write_report_once
    (categories : list (string * list (string * list string))) : list line :=
  Preamble :: (cat_order ≫= write_category_once categories).

(** ** The categorised report as data

    A list of sections, each a category with its dependencies, each
    dependency with its dependers; [layout] gives the lines written for it. *)
Definition categorized_report (explicit_packages : gset string)
    (dm : list (string * list string))
    : list (string * list (string * list string)) :=
  cat_order ≫= λ cat,
    match retained explicit_packages dm cat with
    | [] => []
    | deps =>
        [(cat, (λ dep, (dep, Py.sorted_set
                               (explicit_dependers explicit_packages dm dep)))
               <$> deps)]
    end.

Definition layout_dependency (d : string * list string) : list line :=
  DependencyLine d.1 (length d.2) :: (DependerLine <$> d.2).

Definition layout_section (s : string * list (string * list string))
    : list line :=
  SectionHeader s.1 (length s.2) :: (s.2 ≫= layout_dependency).

Definition layout (secs : list (string * list (string * list string)))
    : list line :=
  secs ≫= layout_section.

(** A dependency is listed in the report. *)
Definition listed (dep : string) (f : list line) : Prop :=
  ∃ count, DependencyLine dep count ∈ f.

(** ** The counter of the loop (lines 75-81)

    The part of the body of [for pkg in explicit_packages] that counts: the
    state is [count] and the counts shown so far by the progress message of
    line 81; the rest of the body is [analyze_package]. *)
Definition count_package (st : nat * list nat) (pkg : string)
    : nat * list nat :=
  let '(count, printed) := st in
  if negb (Py.truthy pkg) then (count, printed)
  else
    let count := count + 1 in
    if (count mod 50 =? 0)%nat then (count, printed ++ [count])
    else (count, printed).

Definition count_packages (order : list string) : nat * list nat :=
  foldl count_package (0, []) order.

(** ** Vocabulary for the further properties *)

(** The characters of a string. *)
Definition chars (s : string) : list ascii := String.list_ascii_of_string s.

(** A name as [pacman] prints it: not empty and without white space. *)
Definition plain_name (s : string) : Prop :=
  s ≠ EmptyString ∧ Forall (λ c, Py.isspace c = false) (chars s).

(** [sep.join(l)] followed by a final line feed: the lines [l] as a command
    prints them. *)
Definition print_lines (l : list string) : string :=
  String.concat nl l +:+ nl.

(** The names of the dependencies of a list of sections, in report order. *)
Definition dependency_names
    (secs : list (string * list (string * list string))) : list string :=
  secs ≫= λ s, s.2.*1.

(** The dependers written under [dep] in a list of sections. *)
Definition dependers_of
    (secs : list (string * list (string * list string))) (dep : string)
    : list string :=
  secs ≫= λ s, s.2 ≫= λ d, if decide (d.1 = dep) then d.2 else [].

(** ** Sample inputs *)

Definition sample_explicit : gset string :=
  {[ "python"; "inkscape"; "libreoffice-fresh"; "qt5-base" ]}.

Definition sample_order : list string :=
  ["qt5-base"; "inkscape"; "python"; "libreoffice-fresh"].

Definition sample_pactree (pkg : string) : run_outcome :=
  if bool_decide (pkg = "python") then
    Completed 0 "python
inkscape
  libreoffice-fresh 
some-other-tool
python

inkscape
"
  else if bool_decide (pkg = "inkscape") then Completed 1 "inkscape
python"
  else if bool_decide (pkg = "qt5-base") then Completed 0 "qt5-base
vlc"
  else Raised.

(** Another enumeration of [sample_explicit], and one of [sample_explicit]
    without "inkscape", whose lookup fails. *)
Definition sample_order_alt : list string :=
  ["python"; "libreoffice-fresh"; "qt5-base"; "inkscape"].

Definition sample_order_rest : list string :=
  ["libreoffice-fresh"; "qt5-base"; "python"].

(** A smaller explicit set. *)
Definition sample_small : gset string := {[ "python"; "inkscape" ]}.

Definition sample_small_order : list string := ["inkscape"; "python"].

(** A second oracle: the same explicit dependers, printed differently. *)
Definition sample_pactree_alt (pkg : string) : run_outcome :=
  if bool_decide (pkg = "python") then
    Completed 0 "python
libreoffice-fresh
inkscape"
  else if bool_decide (pkg = "inkscape") then Completed 0 "inkscape
"
  else Raised.

Example sample_report :
  report sample_explicit sample_pactree sample_order
  = [Preamble; SectionHeader "PYTHON" 1; DependencyLine "python" 2;
     DependerLine "inkscape"; DependerLine "libreoffice-fresh"].
Proof. vm_compute. reflexivity. Qed.

(** ** Facts about the string primitives *)

Lemma lower_char_idem c : Py.lower_char (Py.lower_char c) = Py.lower_char c.
Proof. by destruct c as [[] [] [] [] [] [] [] []]. Qed.

Lemma lower_idem s : Py.lower (Py.lower s) = Py.lower s.
Proof. induction s as [|c s IH]; simpl; [done|]. by rewrite lower_char_idem, IH. Qed.

Lemma truthy_spec s : Py.truthy s = true ↔ s ≠ EmptyString.
Proof.
  unfold Py.truthy. case_bool_decide; simpl; split; intros; done.
Qed.

Lemma sorted_perm l : Py.sorted l ≡ₚ l.
Proof. apply merge_sort_Permutation. Qed.

Lemma sorted_Sorted l : Sorted String.le (Py.sorted l).
Proof. apply (Sorted_merge_sort String.le). Qed.

Lemma sorted_unique l1 l2 : l1 ≡ₚ l2 → Py.sorted l1 = Py.sorted l2.
Proof.
  intros Hp. apply (Sorted_unique String.le); [apply sorted_Sorted..|].
  by rewrite !sorted_perm.
Qed.

Lemma elem_of_sorted x l : x ∈ Py.sorted l ↔ x ∈ l.
Proof. by rewrite sorted_perm. Qed.

Lemma length_sorted l : length (Py.sorted l) = length l.
Proof. by rewrite sorted_perm. Qed.

Lemma elem_of_sorted_set x l : x ∈ Py.sorted_set l ↔ x ∈ l.
Proof. unfold Py.sorted_set. by rewrite elem_of_sorted, elem_of_remove_dups. Qed.

Lemma sorted_set_nil_inv l : Py.sorted_set l = [] → l = [].
Proof.
  intros H. destruct l as [|x l]; [done|].
  assert (x ∈ Py.sorted_set (x :: l)) as Hx by (apply elem_of_sorted_set; left).
  rewrite H in Hx. by apply elem_of_nil in Hx.
Qed.

Lemma NoDup_sorted_set l : NoDup (Py.sorted_set l).
Proof. unfold Py.sorted_set. rewrite sorted_perm. apply NoDup_remove_dups. Qed.

Lemma strictly_sorted (l : list string) :
  Sorted String.le l → NoDup l → ascending l.
Proof.
  intros Hs%(Sorted_StronglySorted String.le) Hnd. unfold ascending.
  induction Hs as [|x l Hs IH Hall]; [constructor|].
  apply NoDup_cons in Hnd as [Hx Hnd]. constructor; [by apply IH|].
  apply Forall_forall. intros y Hy. split.
  - by eapply Forall_forall in Hall.
  - intros Hyx. apply Hx.
    assert (x = y) as ->; [|done].
    apply (anti_symm String.le); [|done]. by eapply Forall_forall in Hall.
Qed.

Lemma ascending_sorted_set l : ascending (Py.sorted_set l).
Proof.
  apply strictly_sorted; [apply sorted_Sorted | apply NoDup_sorted_set].
Qed.

Lemma ascending_sorted l : NoDup l → ascending (Py.sorted l).
Proof.
  intros Hnd. apply strictly_sorted; [apply sorted_Sorted|].
  by rewrite sorted_perm.
Qed.

Lemma filter_all {A} (P : A → Prop) `{∀ x, Decision (P x)} (l : list A) :
  Forall P l → filter P l = l.
Proof.
  induction 1 as [|x l Hx _ IH]; [done|].
  rewrite filter_cons_True by done. by rewrite IH.
Qed.

(** ** Facts about dictionaries *)

Section dict_facts.
Context {K V : Type} `{EqDecision K}.
Implicit Types (k : K) (v : V) (d : list (K * V)).

Lemma dict_get_set k v d k' :
  Dict.get k' (Dict.set k v d) = if decide (k' = k) then Some v else Dict.get k' d.
Proof.
  induction d as [|[k0 v0] d IH]; simpl.
  - by destruct (decide (k' = k)).
  - destruct (decide (k = k0)) as [->|Hne]; simpl.
    + by destruct (decide (k' = k0)).
    + rewrite IH. destruct (decide (k' = k0)) as [->|]; [|done].
      by rewrite decide_False.
Qed.

Lemma dict_get_None k d : Dict.get k d = None ↔ k ∉ Dict.keys d.
Proof.
  unfold Dict.keys. induction d as [|[k0 v0] d IH]; simpl.
  - split; [intros _; apply not_elem_of_nil | done].
  - rewrite not_elem_of_cons, <- IH.
    destruct (decide (k = k0)); split; [done|intros []; done|done|by intros []].
Qed.

Lemma dict_get_Some_elem_of k v d : Dict.get k d = Some v → (k, v) ∈ d.
Proof.
  induction d as [|[k0 v0] d IH]; simpl; [done|].
  destruct (decide (k = k0)) as [->|].
  - intros [= ->]. left.
  - intros. right. by apply IH.
Qed.

Lemma dict_get_elem_of k v d :
  NoDup (Dict.keys d) → (k, v) ∈ d → Dict.get k d = Some v.
Proof.
  unfold Dict.keys. induction d as [|[k0 v0] d IH]; simpl.
  - by intros _ ?%elem_of_nil.
  - intros [Hk0 Hnd]%NoDup_cons [[= -> ->]|Hin]%elem_of_cons.
    + by rewrite decide_True.
    + rewrite decide_False; [by apply IH|].
      intros ->. apply Hk0. apply list_elem_of_fmap. by exists (k0, v).
Qed.

Lemma dict_get_app k d d' :
  Dict.get k (d ++ d')
  = match Dict.get k d with Some v => Some v | None => Dict.get k d' end.
Proof.
  induction d as [|[k0 v0] d IH]; simpl; [done|].
  by destruct (decide (k = k0)).
Qed.

Lemma dict_set_fresh k v d : k ∉ Dict.keys d → Dict.set k v d = d ++ [(k, v)].
Proof.
  unfold Dict.keys. induction d as [|[k0 v0] d IH]; simpl; [done|].
  intros [Hne Hk]%not_elem_of_cons. rewrite decide_False by done.
  by rewrite IH.
Qed.

Lemma dict_set_last k v v0 d :
  k ∉ Dict.keys d → Dict.set k v (d ++ [(k, v0)]) = d ++ [(k, v)].
Proof.
  unfold Dict.keys. induction d as [|[k1 v1] d IH]; simpl.
  - intros _. by rewrite decide_True.
  - intros [Hne Hk]%not_elem_of_cons. rewrite decide_False by done.
    by rewrite IH.
Qed.

Lemma dict_get_perm k d d' :
  NoDup (Dict.keys d) → d ≡ₚ d' → Dict.get k d = Dict.get k d'.
Proof.
  intros Hnd Hp.
  assert (NoDup (Dict.keys d')) as Hnd'.
  { unfold Dict.keys in *. by rewrite <- Hp. }
  destruct (Dict.get k d) as [v|] eqn:Hg.
  - symmetry. apply dict_get_elem_of; [done|]. rewrite <- Hp.
    by apply dict_get_Some_elem_of.
  - destruct (Dict.get k d') as [v'|] eqn:Hg'; [|done].
    apply dict_get_Some_elem_of in Hg'. rewrite <- Hp in Hg'.
    apply dict_get_elem_of in Hg'; [|done]. congruence.
Qed.
End dict_facts.

(** ** The loop that builds [dependency_map] *)

Lemma entry_nil {A} k : @entry A k [] = [].
Proof. done. Qed.

Lemma entry_snoc {A} k (l : list A) x : entry k (l ++ [x]) = [(k, l ++ [x])].
Proof. by destruct l. Qed.

Lemma keys_entry {A} k (l : list A) :
  Dict.keys (entry k l) = if Py.nonempty l then [k] else [].
Proof. by destruct l. Qed.

Lemma get_entry {A} k (l : list A) k' :
  Dict.get k' (entry k l) = if decide (k' = k) then some_nonempty l else None.
Proof.
  destruct l; simpl; by destruct (decide (k' = k)).
Qed.

Lemma clean_dependers_cons pkg a l :
  clean_dependers pkg (a :: l)
  = if Py.truthy (Py.strip a) && negb (bool_decide (Py.strip a = pkg))
    then Py.strip a :: clean_dependers pkg l
    else clean_dependers pkg l.
Proof.
  unfold clean_dependers. rewrite fmap_cons.
  destruct (Py.truthy (Py.strip a)) eqn:Ht; simpl.
  - apply truthy_spec in Ht. case_bool_decide; simpl.
    + rewrite filter_cons_False; [done|]. by intros [_ ?].
    + by rewrite filter_cons_True.
  - rewrite filter_cons_False; [done|].
    intros [Hne _]. apply truthy_spec in Hne. congruence.
Qed.

Lemma dict_append_entry pkg x (d : list (string * list string)) acc :
  pkg ∉ Dict.keys d →
  dict_append pkg x (d ++ entry pkg acc) = d ++ entry pkg (acc ++ [x]).
Proof.
  intros Hk. unfold dict_append. rewrite entry_snoc.
  rewrite dict_get_app. apply dict_get_None in Hk as Hg. rewrite Hg.
  destruct acc as [|a acc]; simpl.
  - rewrite app_nil_r. by apply dict_set_fresh.
  - rewrite decide_True by done. simpl. by apply dict_set_last.
Qed.

Lemma foldl_record_depender pkg l : ∀ (d : list (string * list string)) acc,
  pkg ∉ Dict.keys d →
  foldl (record_depender pkg) (d ++ entry pkg acc) l
  = d ++ entry pkg (acc ++ clean_dependers pkg l).
Proof.
  induction l as [|a l IH]; intros d acc Hk; simpl.
  - unfold clean_dependers. simpl. by rewrite app_nil_r.
  - rewrite clean_dependers_cons. unfold record_depender at 2.
    destruct (_ && _).
    + rewrite dict_append_entry by done. rewrite IH by done.
      by rewrite <- app_assoc.
    + by apply IH.
Qed.

Lemma analyze_package_spec pactree st pkg :
  pkg ∉ Dict.keys (dependency_map st) →
  analyze_package pactree st pkg
  = Analysis (dependency_map st ++ entry pkg (kept_dependers pactree pkg))
             (queried st ++ lookups [pkg]).
Proof.
  intros Hk. destruct st as [d q]. simpl in *.
  unfold analyze_package, kept_dependers, raw_dependers, lookups. simpl.
  destruct (Py.truthy pkg) eqn:Ht; simpl.
  - apply truthy_spec in Ht. rewrite filter_cons_True by done. simpl.
    destruct (pactree pkg) as [rc out|].
    + destruct (rc =? 0)%Z.
      * f_equal. by rewrite <- (app_nil_r d) at 1;
          rewrite <- (entry_nil pkg), foldl_record_depender.
      * by rewrite app_nil_r.
    + by rewrite app_nil_r.
  - rewrite filter_cons_False.
    + by rewrite !app_nil_r.
    + intros Hne. apply truthy_spec in Hne. congruence.
Qed.

Lemma keys_entries pactree order :
  Dict.keys (entries pactree order)
  = filter (λ p, kept_dependers pactree p ≠ []) order.
Proof.
  unfold entries, Dict.keys. induction order as [|p order IH]; [done|].
  rewrite bind_cons, fmap_app, IH.
  destruct (decide (kept_dependers pactree p = [])) as [Hk|Hk].
  - rewrite filter_cons_False by (by intros ?). by rewrite Hk.
  - rewrite filter_cons_True by done.
    by destruct (kept_dependers pactree p).
Qed.

Lemma analyze_from pactree order : ∀ st,
  NoDup order →
  (∀ p, p ∈ order → p ∉ Dict.keys (dependency_map st)) →
  foldl (analyze_package pactree) st order
  = Analysis (dependency_map st ++ entries pactree order)
             (queried st ++ lookups order).
Proof.
  induction order as [|p order IH]; intros st Hnd Hfresh; simpl.
  - destruct st. unfold entries, lookups. simpl. by rewrite !app_nil_r.
  - apply NoDup_cons in Hnd as [Hp Hnd].
    rewrite analyze_package_spec by (apply Hfresh; left).
    rewrite IH; simpl; [| done |].
    + rewrite <- !app_assoc. f_equal. f_equal.
      unfold lookups. by rewrite <- filter_app.
    + intros q Hq. unfold Dict.keys. rewrite fmap_app, not_elem_of_app. split.
      * apply Hfresh. by right.
      * fold (Dict.keys (entry p (kept_dependers pactree p))).
        rewrite keys_entry. destruct (Py.nonempty _).
        -- apply not_elem_of_cons. split; [|apply not_elem_of_nil].
           intros ->. done.
        -- apply not_elem_of_nil.
Qed.

Lemma analyze_spec pactree order :
  NoDup order →
  analyze pactree order = Analysis (entries pactree order) (lookups order).
Proof.
  intros Hnd. unfold analyze. rewrite analyze_from; [done..|].
  intros p _. apply not_elem_of_nil.
Qed.

Lemma build_dependency_map_spec pactree order :
  NoDup order → build_dependency_map pactree order = entries pactree order.
Proof.
  intros Hnd. unfold build_dependency_map. by rewrite analyze_spec.
Qed.

Lemma NoDup_keys_entries pactree order :
  NoDup order → NoDup (Dict.keys (entries pactree order)).
Proof. intros Hnd. rewrite keys_entries. by apply NoDup_filter. Qed.

Lemma get_entries pactree order p :
  Dict.get p (entries pactree order)
  = if decide (p ∈ order) then some_nonempty (kept_dependers pactree p)
    else None.
Proof.
  unfold entries. induction order as [|q order IH].
  - simpl. destruct (decide (p ∈ [])) as [Hin|]; [|done].
    by apply elem_of_nil in Hin.
  - rewrite bind_cons, dict_get_app, get_entry, IH.
    destruct (decide (p = q)) as [->|Hne].
    + destruct (decide (q ∈ q :: order)) as [_|Hnin].
      * destruct (kept_dependers pactree q) eqn:Hk; simpl; [|done].
        by destruct (decide (q ∈ order)).
      * destruct Hnin. left.
    + destruct (decide (p ∈ order)) as [Hin|Hnin];
        destruct (decide (p ∈ q :: order)) as [Hin'|Hnin']; try done.
      * destruct Hnin'. by right.
      * by apply elem_of_cons in Hin' as [?|?].
Qed.

Lemma enumeration_NoDup (S : gset string) order :
  order ≡ₚ elements S → NoDup order.
Proof. intros ->. apply NoDup_elements. Qed.

Lemma enumeration_elem_of (S : gset string) order p :
  order ≡ₚ elements S → p ∈ order ↔ p ∈ S.
Proof. intros ->. apply elem_of_elements. Qed.

(** ** Grouping by category *)

Lemma default_some_nonempty {A} (l : list A) : default [] (some_nonempty l) = l.
Proof. by destruct l. Qed.

Lemma some_nonempty_snoc {A} (l : list A) x :
  some_nonempty (l ++ [x]) = Some (l ++ [x]).
Proof. by destruct l. Qed.

Lemma in_category_snoc S dm dep ds cat :
  in_category S (dm ++ [(dep, ds)]) cat
  = in_category S dm cat
    ++ (if decide (categorize dep = cat)
        then entry dep (filter (λ d, d ∈ S) ds) else []).
Proof.
  unfold in_category. rewrite bind_app, bind_singleton. done.
Qed.

Lemma elem_of_in_category S dm cat dep eds :
  (dep, eds) ∈ in_category S dm cat
  ↔ ∃ ds, (dep, ds) ∈ dm ∧ categorize dep = cat
          ∧ eds = filter (λ d, d ∈ S) ds ∧ eds ≠ [].
Proof.
  unfold in_category. rewrite list_elem_of_bind. split.
  - intros ([dep' ds] & Hin & Hdm). destruct (decide (categorize dep' = cat));
      [|by apply elem_of_nil in Hin].
    destruct (filter _ ds) as [|x0 xs] eqn:Hf; simpl in Hin;
      [by apply elem_of_nil in Hin|].
    apply list_elem_of_singleton in Hin as [= -> ->].
    exists ds. by rewrite Hf.
  - intros (ds & Hdm & Hcat & -> & Hne). exists (dep, ds). split; [|done].
    rewrite decide_True by done.
    destruct (filter _ ds); [done|]. simpl. by apply list_elem_of_singleton.
Qed.

Lemma keys_in_category_subseteq S dm cat dep :
  dep ∈ Dict.keys (in_category S dm cat) → dep ∈ Dict.keys dm.
Proof.
  unfold Dict.keys. rewrite !list_elem_of_fmap.
  intros ([dep' eds] & -> & Hin). apply elem_of_in_category in Hin
    as (ds & Hdm & _). by exists (dep', ds).
Qed.

Lemma NoDup_keys_in_category S dm cat :
  NoDup (Dict.keys dm) → NoDup (Dict.keys (in_category S dm cat)).
Proof.
  unfold Dict.keys. induction dm as [|[dep ds] dm IH]; simpl; [constructor|].
  intros [Hdep Hnd]%NoDup_cons. rewrite fmap_app.
  apply NoDup_app. split; [|split; [|by apply IH]].
  - destruct (decide (categorize dep = cat)); [|constructor].
    destruct (filter _ ds); simpl; [constructor|]. apply NoDup_singleton.
  - intros k Hk Hk'. apply keys_in_category_subseteq in Hk'.
    destruct (decide (categorize dep = cat)); [|by apply elem_of_nil in Hk].
    destruct (filter _ ds); simpl in Hk; [by apply elem_of_nil in Hk|].
    apply list_elem_of_singleton in Hk as ->. done.
Qed.

Lemma get_group_dependency S cats dep ds cat :
  Dict.get cat (group_dependency S cats (dep, ds))
  = if Py.nonempty (filter (λ d, d ∈ S) ds) then
      if decide (cat = categorize dep) then
        Some (Dict.set dep (filter (λ d, d ∈ S) ds)
                (default [] (Dict.get (categorize dep) cats)))
      else Dict.get cat cats
    else Dict.get cat cats.
Proof.
  unfold group_dependency. destruct (Py.nonempty _); [|done].
  by rewrite dict_get_set.
Qed.

Lemma get_build_categories S dm cat :
  NoDup (Dict.keys dm) →
  Dict.get cat (build_categories S dm) = some_nonempty (in_category S dm cat).
Proof.
  unfold build_categories. induction dm as [|[dep ds] dm IH] using rev_ind.
  - done.
  - intros Hnd. unfold Dict.keys in Hnd. rewrite fmap_app in Hnd.
    apply NoDup_app in Hnd as (Hnd & Hfresh & _).
    rewrite foldl_snoc, get_group_dependency, in_category_snoc.
    destruct (filter (λ d, d ∈ S) ds) as [|x0 xs] eqn:Hf; simpl.
    { rewrite IH by done. by destruct (decide _); rewrite app_nil_r. }
    destruct (decide (cat = categorize dep)) as [->|Hne].
    + rewrite decide_True by done. rewrite IH by done.
      rewrite default_some_nonempty, some_nonempty_snoc. f_equal.
      apply dict_set_fresh. intros Hin%keys_in_category_subseteq.
      apply (Hfresh dep Hin). simpl. left.
    + rewrite decide_False by done. rewrite app_nil_r. by apply IH.
Qed.

Lemma in_category_Permutation S dm dm' cat :
  dm ≡ₚ dm' → in_category S dm cat ≡ₚ in_category S dm' cat.
Proof. intros Hp. unfold in_category. by rewrite Hp. Qed.

Lemma explicit_dependers_in_category S dm cat dep eds :
  NoDup (Dict.keys dm) →
  (dep, eds) ∈ in_category S dm cat →
  explicit_dependers S dm dep = eds ∧ eds ≠ [] ∧ Forall (λ d, d ∈ S) eds.
Proof.
  intros Hnd (ds & Hdm & _ & -> & Hne)%elem_of_in_category.
  unfold explicit_dependers. rewrite (dict_get_elem_of dep ds) by done.
  simpl. split; [done|]. split; [done|].
  apply Forall_forall. by intros d [? _]%list_elem_of_filter.
Qed.

Lemma elem_of_retained S dm cat dep :
  NoDup (Dict.keys dm) →
  dep ∈ retained S dm cat
  ↔ categorize dep = cat ∧ explicit_dependers S dm dep ≠ [].
Proof.
  intros Hnd. unfold retained. rewrite elem_of_sorted. unfold Dict.keys.
  rewrite list_elem_of_fmap. split.
  - intros ([dep' eds] & -> & Hin). simpl.
    apply explicit_dependers_in_category in Hin as Hex; [|done].
    destruct Hex as (-> & Hne & _).
    by apply elem_of_in_category in Hin as (_ & _ & ? & _).
  - intros [Hcat Hne]. exists (dep, explicit_dependers S dm dep).
    split; [done|]. apply elem_of_in_category.
    unfold explicit_dependers in *.
    destruct (Dict.get dep dm) as [ds|] eqn:Hg; [|done].
    exists ds. split; [|done]. by apply dict_get_Some_elem_of.
Qed.

Lemma ascending_retained S dm cat :
  NoDup (Dict.keys dm) → ascending (retained S dm cat).
Proof.
  intros Hnd. apply ascending_sorted. by apply NoDup_keys_in_category.
Qed.

(** ** Writing the report *)

Lemma write_dependency_spec S dm cat dep :
  NoDup (Dict.keys dm) →
  dep ∈ Dict.keys (in_category S dm cat) →
  write_dependency S (in_category S dm cat) dep = dependency_lines S dm dep.
Proof.
  intros Hnd Hdep. unfold Dict.keys in Hdep.
  apply list_elem_of_fmap in Hdep as ([dep' eds] & -> & Hin). simpl.
  unfold write_dependency, dependency_lines.
  rewrite (dict_get_elem_of dep' eds);
    [|by apply NoDup_keys_in_category|done].
  apply explicit_dependers_in_category in Hin as (-> & Hne & Hall); [|done].
  simpl. rewrite filter_all.
  - destruct (Py.sorted_set _) eqn:Hs; [|done].
    by apply sorted_set_nil_inv in Hs.
  - apply Forall_forall. intros d Hd. rewrite elem_of_sorted_set in Hd.
    by eapply Forall_forall in Hall.
Qed.

Lemma write_category_get S cats cat l :
  Dict.get cat cats = some_nonempty l →
  write_category S cats cat
  = match l with
    | [] => []
    | _ => SectionHeader cat (length l)
           :: (Py.sorted (Dict.keys l) ≫= write_dependency S l)
    end.
Proof. unfold write_category. intros ->. by destruct l. Qed.

Lemma length_retained S dm cat :
  length (retained S dm cat) = length (in_category S dm cat).
Proof.
  unfold retained, Dict.keys. by rewrite length_sorted, length_fmap.
Qed.

Lemma write_category_spec S dm cat :
  NoDup (Dict.keys dm) →
  write_category S (build_categories S dm) cat = section_lines S dm cat.
Proof.
  intros Hnd.
  rewrite (write_category_get _ _ _ (in_category S dm cat))
    by (by apply get_build_categories).
  unfold section_lines.
  change (Py.sorted (Dict.keys (in_category S dm cat)))
    with (retained S dm cat).
  assert (retained S dm cat ≫= write_dependency S (in_category S dm cat)
          = retained S dm cat ≫= dependency_lines S dm) as ->.
  { apply Forall_bind_ext, Forall_forall. intros dep Hdep.
    apply write_dependency_spec; [done|].
    unfold retained in Hdep. by rewrite elem_of_sorted in Hdep. }
  pose proof (length_retained S dm cat) as Hlen.
  destruct (retained S dm cat), (in_category S dm cat); try done.
  by rewrite Hlen.
Qed.

Lemma write_report_spec S dm :
  NoDup (Dict.keys dm) →
  write_report S (build_categories S dm)
  = Preamble :: (cat_order ≫= section_lines S dm).
Proof.
  intros Hnd. unfold write_report. f_equal.
  apply list_bind_ext; [|done]. intros cat. by apply write_category_spec.
Qed.

Lemma section_lines_Permutation S dm dm' cat :
  NoDup (Dict.keys dm) → dm ≡ₚ dm' →
  section_lines S dm cat = section_lines S dm' cat.
Proof.
  intros Hnd Hp. unfold section_lines.
  assert (retained S dm cat = retained S dm' cat) as ->.
  { unfold retained, Dict.keys. apply sorted_unique.
    by rewrite (in_category_Permutation S dm dm' cat Hp). }
  destruct (retained S dm' cat); [done|]. f_equal.
  apply list_bind_ext; [|done]. intros dep.
  unfold dependency_lines, explicit_dependers.
  by rewrite (dict_get_perm dep dm dm').
Qed.

Lemma report_spec S pactree order :
  order ≡ₚ elements S →
  report S pactree order
  = Preamble :: (cat_order ≫= section_lines S (entries pactree order)).
Proof.
  intros Ho%enumeration_NoDup. unfold report.
  rewrite build_dependency_map_spec by done.
  apply write_report_spec. by apply NoDup_keys_entries.
Qed.

(** ** Membership in the report *)

Lemma cat_order_names : cat_order = cat_name <$> all_categories.
Proof. reflexivity. Qed.

Lemma cat_name_inj c c' : cat_name c = cat_name c' → c = c'.
Proof. destruct c, c'; simpl; intros [=]; reflexivity. Qed.

Ltac first_rule :=
  repeat match goal with
    | |- context [Py.contains ?s ?t] =>
        destruct (Py.contains s t); cbn [orb fst snd]; try reflexivity
    | |- context [Py.startswith ?s ?t] =>
        destruct (Py.startswith s t); cbn [orb fst snd]; try reflexivity
    | |- context [bool_decide ?P] =>
        destruct (bool_decide P); cbn [orb fst snd]; try reflexivity
    end.

Lemma categorize_rule_table pkg :
  categorize pkg = cat_name (first_match rule_table pkg).
Proof.
  unfold categorize, rule_table, first_match, any_of, existsb.
  first_rule.
Qed.

Lemma categorize_in_cat_order pkg : categorize pkg ∈ cat_order.
Proof.
  rewrite categorize_rule_table, cat_order_names.
  apply list_elem_of_fmap_2. by destruct (first_match rule_table pkg);
    unfold all_categories; set_solver.
Qed.

Lemma explicit_dependers_nonempty S dm dep :
  explicit_dependers S dm dep ≠ []
  ↔ ∃ d, d ∈ default [] (Dict.get dep dm) ∧ d ∈ S.
Proof.
  unfold explicit_dependers. split.
  - intros Hne. destruct (filter _ _) as [|d l] eqn:Hf; [done|].
    assert (d ∈ d :: l) as Hd by left. rewrite <- Hf in Hd.
    apply list_elem_of_filter in Hd as [? ?]. by exists d.
  - intros (d & Hd & HS) Hf.
    assert (d ∈ filter (λ d, d ∈ S) (default [] (Dict.get dep dm))) as Hin
      by (by apply list_elem_of_filter).
    rewrite Hf in Hin. by apply elem_of_nil in Hin.
Qed.

Lemma elem_of_section_lines S dm cat dep n :
  NoDup (Dict.keys dm) →
  DependencyLine dep n ∈ section_lines S dm cat
  ↔ categorize dep = cat ∧ explicit_dependers S dm dep ≠ []
    ∧ n = length (Py.sorted_set (explicit_dependers S dm dep)).
Proof.
  intros Hnd.
  assert (DependencyLine dep n ∈ section_lines S dm cat
          ↔ dep ∈ retained S dm cat
            ∧ n = length (Py.sorted_set (explicit_dependers S dm dep))) as ->.
  { unfold section_lines.
    assert (DependencyLine dep n ∈ retained S dm cat ≫= dependency_lines S dm
            ↔ dep ∈ retained S dm cat
              ∧ n = length (Py.sorted_set (explicit_dependers S dm dep))) as Hb.
    { rewrite list_elem_of_bind. unfold dependency_lines. split.
      - intros (dep' & Hin & Hdep').
        apply elem_of_cons in Hin as [[= -> ->]|Hin]; [done|].
        by apply list_elem_of_fmap in Hin as (? & [=] & _).
      - intros [Hdep ->]. exists dep. split; [left|done]. }
    destruct (retained S dm cat) as [|k ks] eqn:Hr.
    - split; [by intros ?%elem_of_nil|]. by intros [?%elem_of_nil _].
    - rewrite elem_of_cons, Hb. split; [|by right]. by intros [[=]|?]. }
  rewrite (elem_of_retained S dm cat dep Hnd).
  split; [by intros [[? ?] ?]|by intros (? & ? & ?)].
Qed.

Lemma listed_sections S dm dep :
  NoDup (Dict.keys dm) →
  listed dep (Preamble :: (cat_order ≫= section_lines S dm))
  ↔ explicit_dependers S dm dep ≠ [].
Proof.
  intros Hnd. unfold listed. split.
  - intros (n & [[=]|Hin]%elem_of_cons).
    apply list_elem_of_bind in Hin as (cat & Hin & _).
    by apply elem_of_section_lines in Hin as (_ & ? & _).
  - intros Hne. eexists. right. apply list_elem_of_bind.
    exists (categorize dep). split; [|apply categorize_in_cat_order].
    by apply elem_of_section_lines.
Qed.

Lemma header_in_sections S dm cat n :
  SectionHeader cat n ∈ Preamble :: (cat_order ≫= section_lines S dm) →
  retained S dm cat ≠ [] ∧ n = length (retained S dm cat).
Proof.
  intros [[=]|Hin]%elem_of_cons.
  apply list_elem_of_bind in Hin as (cat' & Hin & _).
  unfold section_lines in Hin.
  destruct (retained S dm cat') as [|k ks] eqn:Hr; [by apply elem_of_nil in Hin|].
  apply elem_of_cons in Hin as [[= -> ->]|Hin]; [by rewrite Hr|].
  apply list_elem_of_bind in Hin as (dep & Hin & _). unfold dependency_lines in Hin.
  apply elem_of_cons in Hin as [[=]|Hin].
  by apply list_elem_of_fmap in Hin as (? & [=] & _).
Qed.

Lemma keys_entries_explicit (S : gset string) pactree order k :
  order ≡ₚ elements S →
  k ∈ Dict.keys (entries pactree order) → k ≠ EmptyString ∧ k ∈ S.
Proof.
  intros Ho. rewrite keys_entries, list_elem_of_filter.
  intros [Hk Hin]. split; [|by apply (enumeration_elem_of S order)].
  intros ->. by apply Hk.
Qed.

Lemma explicit_dependers_key S dm dep :
  explicit_dependers S dm dep ≠ [] → dep ∈ Dict.keys dm.
Proof.
  unfold explicit_dependers. intros Hne.
  destruct (decide (dep ∈ Dict.keys dm)) as [|Hk]; [done|].
  apply dict_get_None in Hk. by rewrite Hk in Hne.
Qed.

(** * The claims *)

(** C1.  For every package name [categorize] returns the name of exactly one
    category.  It is the category of the first rule of the ordered table that
    matches, [OTHER] when no rule matches; hence a name that matches rule 1
    (it contains "python") classifies as PYTHON whatever later rule, such as
    rule 8 ("kde"), it also matches: "python-kde-tools" is PYTHON. *)
Theorem categorize_first_match_wins (pkg : string) :
  (∃ c : Category,
      categorize pkg = cat_name c ∧ ∀ c', categorize pkg = cat_name c' → c' = c)
  ∧ categorize pkg = cat_name (first_match rule_table pkg)
  ∧ (Forall (λ r, r.1 pkg = false) rule_table → categorize pkg = cat_name OTHER)
  ∧ (any_of ["python"] pkg = true → any_of ["kde"] pkg = true →
     categorize pkg = cat_name PYTHON)
  ∧ categorize "python-kde-tools" = cat_name PYTHON
  ∧ any_of ["python"] "python-kde-tools" = true
  ∧ any_of ["kde"] "python-kde-tools" = true.
Proof.
  split; [|split; [|split; [|split]]].
  - exists (first_match rule_table pkg). rewrite categorize_rule_table.
    split; [done|]. intros c' Hc'. symmetry. by apply cat_name_inj.
  - apply categorize_rule_table.
  - intros Hall. rewrite categorize_rule_table. f_equal.
    induction Hall as [|[m c] rules Hm _ IH]; [done|].
    simpl in *. by rewrite Hm.
  - intros Hpy _. rewrite categorize_rule_table.
    unfold rule_table, first_match. by rewrite Hpy.
  - by vm_compute.
Qed.

Lemma categorize_first_match_wins_witness :
  any_of ["python"] "python-kde-tools" = true
  ∧ any_of ["kde"] "python-kde-tools" = true
  ∧ categorize "python-kde-tools" = cat_name PYTHON.
Proof.
  split; [reflexivity|]. split; [reflexivity|].
  destruct (categorize_first_match_wins "python-kde-tools")
    as (_ & _ & _ & H & _).
  apply H; reflexivity.
Defined.

(** C3.  For every package [p] of the explicit set, the entry of [p] in the
    dependency map is the list of its raw dependers, each stripped of
    surrounding white space, without the empty strings and without [p]
    itself, in order and with repetitions; when that list is empty the map
    has no entry for [p] (never an entry with an empty list).  In particular
    no entry contains its own key. *)
Theorem dependency_map_entry (S : gset string) pactree order p :
  order ≡ₚ elements S → p ∈ S →
  let dm := build_dependency_map pactree order in
  let kept :=
    filter (λ d, d ≠ EmptyString ∧ d ≠ p) (Py.strip <$> raw_dependers pactree p)
  in
  (kept ≠ [] → Dict.get p dm = Some kept)
  ∧ (kept = [] → Dict.get p dm = None)
  ∧ Dict.get p dm ≠ Some []
  ∧ p ∉ default [] (Dict.get p dm).
Proof.
  intros Ho Hp dm kept.
  assert (Dict.get p dm = some_nonempty kept) as Hg.
  { unfold dm. rewrite build_dependency_map_spec
      by (by apply (enumeration_NoDup S)).
    rewrite get_entries. rewrite decide_True; [done|].
    by apply (enumeration_elem_of S order). }
  rewrite Hg. split; [|split; [|split]].
  - by destruct kept.
  - by intros ->.
  - by destruct kept.
  - rewrite default_some_nonempty. unfold kept.
    rewrite list_elem_of_filter. by intros [[_ ?] _].
Qed.

(** C10.  Every key of the dependency map is a non-empty string of the
    explicit set; the empty string is never looked up; and every dependency
    listed in the report is a non-empty string of the explicit set. *)
Theorem dependency_keys_are_explicit (S : gset string) pactree order :
  order ≡ₚ elements S →
  (∀ k, k ∈ Dict.keys (build_dependency_map pactree order) →
        k ≠ EmptyString ∧ k ∈ S)
  ∧ (EmptyString ∉ queried (analyze pactree order))
  ∧ (∀ dep, listed dep (report S pactree order) → dep ≠ EmptyString ∧ dep ∈ S).
Proof.
  intros Ho. pose proof (enumeration_NoDup S order Ho) as Hnd.
  rewrite report_spec, build_dependency_map_spec, analyze_spec by done.
  simpl. split; [|split].
  - intros k. by apply keys_entries_explicit.
  - unfold lookups. rewrite list_elem_of_filter. by intros [? _].
  - intros dep Hdep. apply listed_sections in Hdep;
      [|by apply NoDup_keys_entries].
    apply explicit_dependers_key in Hdep.
    by apply (keys_entries_explicit S pactree order).
Qed.

(** C2.  A dependency is listed in the report if and only if it is in the
    explicit set and one of its dependers in the dependency map is in the
    explicit set; a dependency none of whose dependers is in the explicit set
    is not listed at all. *)
Theorem report_lists_shared_dependencies (S : gset string) pactree order dep :
  order ≡ₚ elements S →
  let dm := build_dependency_map pactree order in
  (listed dep (report S pactree order)
   ↔ dep ∈ S ∧ ∃ d, d ∈ default [] (Dict.get dep dm) ∧ d ∈ S)
  ∧ (filter (λ d, d ∈ S) (default [] (Dict.get dep dm)) = [] →
     ¬ listed dep (report S pactree order)).
Proof.
  intros Ho dm. pose proof (enumeration_NoDup S order Ho) as Hnd.
  assert (listed dep (report S pactree order)
          ↔ explicit_dependers S dm dep ≠ []) as Hl.
  { unfold dm. rewrite report_spec, build_dependency_map_spec by done.
    apply listed_sections. by apply NoDup_keys_entries. }
  split.
  - rewrite Hl, explicit_dependers_nonempty. split; [|by intros [_ ?]].
    intros Hex. split; [|done].
    apply explicit_dependers_nonempty, explicit_dependers_key in Hex.
    unfold dm in Hex. rewrite build_dependency_map_spec in Hex by done.
    by apply (keys_entries_explicit S pactree order) in Hex as [_ ?].
  - intros Hf Hlisted. by apply Hl in Hlisted.
Qed.

(** C9.  With an empty explicit set the dependency map has no entry and the
    report holds no section: only the fixed comment block is written. *)
Theorem empty_explicit_set_empty_report pactree order :
  order ≡ₚ elements (∅ : gset string) →
  build_dependency_map pactree order = []
  ∧ report ∅ pactree order = [Preamble]
  ∧ (∀ cat count, SectionHeader cat count ∉ report ∅ pactree order)
  ∧ (∀ dep, ¬ listed dep (report ∅ pactree order)).
Proof.
  rewrite elements_empty. intros ->%Permutation_nil_r.
  split; [done|]. split; [done|].
  assert (report ∅ pactree [] = [Preamble]) as -> by done.
  split.
  - intros cat count [[=]|[]%elem_of_nil]%elem_of_cons.
  - intros dep [count [[=]|[]%elem_of_nil]%elem_of_cons].
Qed.

(** When [pacman] prints nothing the set read at line 69 is not empty: it
    holds the empty string, which the loop skips; the report is empty too. *)
Lemma no_output_empty_report pactree order :
  read_explicit_packages EmptyString = {[ EmptyString ]}
  ∧ (order ≡ₚ elements (read_explicit_packages EmptyString) →
     report (read_explicit_packages EmptyString) pactree order = [Preamble]).
Proof.
  assert (read_explicit_packages EmptyString = {[ EmptyString ]}) as ->.
  { unfold read_explicit_packages. simpl. set_solver. }
  split; [done|]. rewrite elements_singleton.
  by intros ->%Permutation_singleton_r.
Qed.

(** ** The report as data *)

Lemma layout_categorized_report S dm :
  layout (categorized_report S dm) = cat_order ≫= section_lines S dm.
Proof.
  unfold layout, categorized_report. induction cat_order as [|cat cats IH];
    [done|].
  rewrite !bind_cons, bind_app, IH. f_equal. unfold section_lines.
  destruct (retained S dm cat) as [|k ks]; [done|].
  rewrite bind_singleton. unfold layout_section. cbn [fst snd].
  rewrite length_fmap. f_equal. by rewrite list_fmap_bind.
Qed.

Lemma categorized_report_order S dm :
  (categorized_report S dm).*1 `sublist_of` cat_order.
Proof.
  unfold categorized_report. induction cat_order as [|cat cats IH];
    [done|].
  rewrite bind_cons, fmap_app. destruct (retained S dm cat).
  - by apply sublist_cons.
  - by apply sublist_skip.
Qed.

Lemma fmap_fst_pair {A B} (g : A → B) (l : list A) :
  ((λ x, (x, g x)) <$> l).*1 = l.
Proof. induction l as [|x l IH]; [done|]. rewrite !fmap_cons. by rewrite IH. Qed.

Lemma elem_of_categorized_report S dm s :
  s ∈ categorized_report S dm →
  retained S dm s.1 ≠ []
  ∧ s.2 = (λ dep, (dep, Py.sorted_set (explicit_dependers S dm dep)))
          <$> retained S dm s.1.
Proof.
  unfold categorized_report. intros (cat & Hin & _)%list_elem_of_bind.
  destruct (retained S dm cat) as [|k ks] eqn:Hr; [by apply elem_of_nil in Hin|].
  apply list_elem_of_singleton in Hin as ->. simpl. by rewrite Hr.
Qed.

(** ** The variant with a single filter *)

Section dict_values.
Context {K V : Type} `{EqDecision K} (P : V → Prop).
Implicit Types (k : K) (v : V) (d : list (K * V)).

Lemma dict_set_Forall k v d :
  Forall (λ e, P e.2) d → P v → Forall (λ e, P e.2) (Dict.set k v d).
Proof.
  intros Hd Hv. induction Hd as [|[k0 v0] d H0 Hd IH]; simpl.
  - by constructor.
  - destruct (decide (k = k0)); by constructor.
Qed.

Lemma dict_get_Forall k v d :
  Forall (λ e, P e.2) d → Dict.get k d = Some v → P v.
Proof.
  intros Hd Hg%dict_get_Some_elem_of.
  by apply (proj1 (Forall_forall _ _) Hd (k, v)).
Qed.
End dict_values.

Lemma group_dependency_explicit (S : gset string)
    (cats : list (string * list (string * list string))) item :
  Forall (λ c, Forall (λ e, Forall (λ d, d ∈ S) e.2) c.2) cats →
  Forall (λ c, Forall (λ e, Forall (λ d, d ∈ S) e.2) c.2)
         (group_dependency S cats item).
Proof.
  intros Hc. destruct item as [dep ds]. unfold group_dependency.
  destruct (Py.nonempty _); [|done].
  apply (dict_set_Forall (λ in_cat, Forall (λ e, Forall (λ d, d ∈ S) e.2) in_cat));
    [done|].
  apply (dict_set_Forall (λ eds, Forall (λ d, d ∈ S) eds)).
  - destruct (Dict.get (categorize dep) cats) as [in_cat|] eqn:Hg; simpl;
      [|constructor].
    by apply (dict_get_Forall
      (λ in_cat, Forall (λ e, Forall (λ d, d ∈ S) e.2) in_cat) _ _ _ Hc Hg).
  - apply Forall_forall. by intros d [? _]%list_elem_of_filter.
Qed.

Lemma build_categories_explicit S dm :
  Forall (λ c, Forall (λ e, Forall (λ d, d ∈ S) e.2) c.2)
         (build_categories S dm).
Proof.
  unfold build_categories.
  assert (∀ cats,
    Forall (λ c, Forall (λ e, Forall (λ d, d ∈ S) e.2) c.2) cats →
    Forall (λ c, Forall (λ e, Forall (λ d, d ∈ S) e.2) c.2)
           (foldl (group_dependency S) cats dm)) as H.
  { induction dm as [|item dm IH]; intros cats Hc; simpl; [done|].
    by apply IH, group_dependency_explicit. }
  apply H. constructor.
Qed.

Lemma second_filter_is_identity (S : gset string)
    (cats : list (string * list (string * list string))) cat in_cat dep :
  Forall (λ c, Forall (λ e, Forall (λ d, d ∈ S) e.2) c.2) cats →
  Dict.get cat cats = Some in_cat →
  filter (λ d, d ∈ S) (Py.sorted_set (default [] (Dict.get dep in_cat)))
  = Py.sorted_set (default [] (Dict.get dep in_cat)).
Proof.
  intros Hc Hg. apply filter_all, Forall_forall. intros d Hd.
  rewrite elem_of_sorted_set in Hd.
  destruct (Dict.get dep in_cat) as [eds|] eqn:Hdep; simpl in Hd;
    [|by apply elem_of_nil in Hd].
  pose proof (dict_get_Forall
    (λ in_cat, Forall (λ e, Forall (λ d, d ∈ S) e.2) in_cat) _ _ _ Hc Hg) as Hin.
  pose proof (dict_get_Forall
    (λ eds, Forall (λ d, d ∈ S) eds) _ _ _ Hin Hdep) as Heds.
  by apply (proj1 (Forall_forall _ _) Heds).
Qed.

Lemma write_category_once_eq (S : gset string)
    (cats : list (string * list (string * list string))) cat :
  Forall (λ c, Forall (λ e, Forall (λ d, d ∈ S) e.2) c.2) cats →
  write_category_once cats cat = write_category S cats cat.
Proof.
  intros Hc. unfold write_category_once, write_category.
  destruct (Dict.get cat cats) as [in_cat|] eqn:Hg; [|done].
  destruct (Py.nonempty in_cat); [|done]. f_equal.
  apply list_bind_ext; [|done]. intros dep.
  unfold write_dependency_once, write_dependency.
  by rewrite (second_filter_is_identity S cats cat in_cat dep).
Qed.

(** C5.  The filter applied when the report is written is redundant: the
    script without it writes the same report, for every explicit set and
    every dependency map, because the dependers it would filter were already
    filtered when they were grouped, so it removes nothing. *)
Theorem single_filter_same_report (S : gset string)
    (dm : list (string * list string)) :
  write_report_once (build_categories S dm)
  = write_report S (build_categories S dm)
  ∧ render (write_report_once (build_categories S dm))
    = render (write_report S (build_categories S dm))
  ∧ ∀ cat in_cat dep,
      Dict.get cat (build_categories S dm) = Some in_cat →
      let all_dependers := Py.sorted_set (default [] (Dict.get dep in_cat)) in
      filter (λ d, d ∈ S) all_dependers = all_dependers.
Proof.
  pose proof (build_categories_explicit S dm) as Hc.
  assert (write_report_once (build_categories S dm)
          = write_report S (build_categories S dm)) as Heq.
  { unfold write_report_once, write_report. f_equal.
    apply list_bind_ext; [|done]. intros cat.
    by apply write_category_once_eq. }
  split; [done|]. split; [by rewrite Heq|].
  intros cat in_cat dep Hg. simpl.
  by apply (second_filter_is_identity S (build_categories S dm) cat).
Qed.

(** C6.  The report is the comment block followed by the layout of a list of
    sections such that: the categories of the sections follow the fixed order
    [cat_order], each at most once; every section has at least one
    dependency; the dependencies of a section are in ascending order of their
    names (Python's order on strings), without repetition, and belong to the
    category; the dependers of a dependency are its explicit dependers, in
    ascending order and without repetition. *)
Theorem report_sections_sorted (S : gset string) pactree order :
  order ≡ₚ elements S →
  let dm := build_dependency_map pactree order in
  let secs := categorized_report S dm in
  report S pactree order = Preamble :: layout secs
  ∧ secs.*1 `sublist_of` cat_order
  ∧ Forall (λ s,
      s.2 ≠ [] ∧ ascending (s.2.*1)
      ∧ Forall (λ d,
          categorize d.1 = s.1 ∧ d.2 ≠ [] ∧ ascending d.2
          ∧ ∀ x, x ∈ d.2 ↔ x ∈ explicit_dependers S dm d.1) s.2) secs
  ∧ (∀ cat count, SectionHeader cat count ∈ report S pactree order →
       0 < count ∧ count = length (retained S dm cat)).
Proof.
  intros Ho dm secs. pose proof (enumeration_NoDup S order Ho) as Hnd.
  assert (NoDup (Dict.keys dm)) as Hdm.
  { unfold dm. rewrite build_dependency_map_spec by done.
    by apply NoDup_keys_entries. }
  assert (report S pactree order
          = Preamble :: (cat_order ≫= section_lines S dm)) as Hrep.
  { unfold dm. rewrite build_dependency_map_spec by done. by apply report_spec. }
  split; [|split; [|split]].
  - rewrite Hrep. unfold secs. by rewrite layout_categorized_report.
  - apply categorized_report_order.
  - apply Forall_forall. intros [cat deps] [Hne Hdeps]%elem_of_categorized_report.
    simpl in *. subst deps. split; [|split].
    + by destruct (retained S dm cat).
    + rewrite fmap_fst_pair. by apply ascending_retained.
    + apply Forall_forall. intros [dep ds] (dep' & [= -> ->] & Hin)%list_elem_of_fmap.
      simpl. apply elem_of_retained in Hin as [Hcat Hex]; [|done].
      split; [done|]. split; [|split].
      * intros Hs. by apply sorted_set_nil_inv in Hs.
      * apply ascending_sorted_set.
      * intros x. apply elem_of_sorted_set.
  - intros cat count Hin. rewrite Hrep in Hin.
    apply header_in_sections in Hin as [Hne ->]. split; [|done].
    destruct (retained S dm cat); [done|]. simpl. lia.
Qed.

(** ** Independence of the enumeration order *)

Lemma write_report_Permutation S dm dm' :
  NoDup (Dict.keys dm) → dm ≡ₚ dm' →
  write_report S (build_categories S dm)
  = write_report S (build_categories S dm').
Proof.
  intros Hnd Hp.
  assert (NoDup (Dict.keys dm')) as Hnd'.
  { unfold Dict.keys in *. by rewrite <- Hp. }
  rewrite !write_report_spec by done. f_equal.
  apply list_bind_ext; [|done]. intros cat.
  by apply section_lines_Permutation.
Qed.

Lemma entries_Permutation pactree order order' :
  order ≡ₚ order' → entries pactree order ≡ₚ entries pactree order'.
Proof. intros Hp. unfold entries. by rewrite Hp. Qed.

(** C7.  The report is a function of its inputs alone: whatever the order in
    which the explicit set is enumerated, and whatever the insertion order of
    the dependency map, the same lines are written, hence the same text. *)
Theorem report_deterministic (S : gset string) pactree order order' :
  order ≡ₚ elements S → order' ≡ₚ elements S →
  report S pactree order = report S pactree order'
  ∧ render (report S pactree order) = render (report S pactree order')
  ∧ ∀ dm dm', NoDup (Dict.keys dm) → dm ≡ₚ dm' →
      render (write_report S (build_categories S dm))
      = render (write_report S (build_categories S dm')).
Proof.
  intros Ho Ho'.
  assert (report S pactree order = report S pactree order') as Heq.
  { unfold report.
    rewrite !build_dependency_map_spec by (by apply (enumeration_NoDup S)).
    apply write_report_Permutation.
    - apply NoDup_keys_entries. by apply (enumeration_NoDup S).
    - apply entries_Permutation. by rewrite Ho, Ho'. }
  split; [done|]. split; [by rewrite Heq|].
  intros dm dm' Hnd Hp. by rewrite (write_report_Permutation S dm dm').
Qed.

(** ** Failed lookups *)

Lemma kept_dependers_failed pactree p :
  lookup_failed pactree p → kept_dependers pactree p = [].
Proof.
  unfold lookup_failed, kept_dependers, raw_dependers.
  destruct (Py.truthy p); [|done].
  destruct (pactree p) as [rc out|]; [|done].
  intros Hrc. by rewrite (proj2 (Z.eqb_neq rc 0) Hrc).
Qed.

(** C8.  When the lookup of a package [p] fails (the call raises, as on a
    timeout or on output that cannot be decoded, or it exits with a non-zero
    status), [p] gets no entry in the dependency map, every entry is what it
    would be with [p] absent from the explicit set, and the loop goes on:
    every non-empty package of the set is still looked up. *)
Theorem failed_lookup_is_absorbed (S : gset string) pactree order order' p :
  lookup_failed pactree p →
  order ≡ₚ elements S → order' ≡ₚ elements (S ∖ {[p]}) →
  Dict.get p (build_dependency_map pactree order) = None
  ∧ (∀ q, Dict.get q (build_dependency_map pactree order)
          = Dict.get q (build_dependency_map pactree order'))
  ∧ queried (analyze pactree order) = filter (λ q, q ≠ EmptyString) order.
Proof.
  intros Hfail Ho Ho'.
  pose proof (enumeration_NoDup S order Ho) as Hnd.
  pose proof (enumeration_NoDup _ order' Ho') as Hnd'.
  pose proof (kept_dependers_failed pactree p Hfail) as Hp.
  rewrite analyze_spec, !build_dependency_map_spec by done.
  split; [|split; [|done]].
  - rewrite get_entries, Hp. by destruct (decide _).
  - intros q. rewrite !get_entries.
    destruct (decide (q = p)) as [->|Hne].
    + rewrite Hp. by do 2 destruct (decide _).
    + destruct (decide (q ∈ order)) as [Hq|Hq];
        destruct (decide (q ∈ order')) as [Hq'|Hq']; try done.
      * exfalso. apply Hq'. apply (enumeration_elem_of _ order' q Ho').
        apply (enumeration_elem_of S order q Ho) in Hq.
        apply elem_of_difference. split; [done|].
        by intros ?%elem_of_singleton.
      * exfalso. apply Hq. apply (enumeration_elem_of S order q Ho).
        apply (enumeration_elem_of _ order' q Ho') in Hq'.
        by apply elem_of_difference in Hq' as [? _].
Qed.

(** ** Letter case *)

Lemma categorize_unfold pkg :
  categorize pkg
  = if Py.contains "python" (Py.lower pkg) || Py.startswith pkg "python-" then
      "PYTHON"
    else if Py.contains "perl" (Py.lower pkg) then "PERL"
    else if bool_decide (pkg ∈ development_tools) then "DEVELOPMENT_TOOLS"
    else categorize_rest (Py.lower pkg).
Proof. reflexivity. Qed.

Lemma append_cons c s r : String c s +:+ r = String c (s +:+ r).
Proof. reflexivity. Qed.

Lemma startswith_inv s p : Py.startswith s p = true → ∃ r, s = p +:+ r.
Proof.
  revert s. induction p as [|a p IH]; intros s; simpl.
  - intros _. by exists s.
  - destruct s as [|b s]; [done|].
    intros [Hab Hs]%andb_prop. apply bool_decide_eq_true_1 in Hab as ->.
    apply IH in Hs as [r ->]. by exists r.
Qed.

Lemma startswith_append p r : Py.startswith (p +:+ r) p = true.
Proof.
  induction p as [|a p IH]; [reflexivity|].
  rewrite append_cons. simpl. by rewrite bool_decide_eq_true_2, IH.
Qed.

Lemma contains_startswith sub s :
  Py.startswith s sub = true → Py.contains sub s = true.
Proof. intros H. destruct s; simpl; by rewrite H. Qed.

Lemma lower_append a b : Py.lower (a +:+ b) = Py.lower a +:+ Py.lower b.
Proof.
  induction a as [|c a IH]; [reflexivity|].
  rewrite append_cons. simpl. by rewrite IH.
Qed.

Lemma startswith_python pkg :
  Py.startswith pkg "python-" = true →
  Py.contains "python" (Py.lower pkg) = true.
Proof.
  intros [r ->]%startswith_inv. rewrite lower_append.
  apply contains_startswith.
  change (Py.lower "python-" +:+ Py.lower r)
    with ("python" +:+ ("-" +:+ Py.lower r)).
  apply startswith_append.
Qed.

Ltac tool_cases H :=
  unfold development_tools in H;
  repeat (apply elem_of_cons in H as [->|H]);
  [..|by apply elem_of_nil in H].

Lemma development_tools_lower pkg :
  pkg ∈ development_tools → Py.lower pkg = pkg.
Proof. intros H. tool_cases H; reflexivity. Qed.

Lemma development_tools_plain low :
  low ∈ development_tools →
  Py.contains "python" low = false ∧ Py.contains "perl" low = false
  ∧ categorize_rest low = "OTHER".
Proof. intros H. tool_cases H; repeat split; reflexivity. Qed.

Example categorize_Git :
  categorize "Git" = "OTHER"
  ∧ categorize (Py.lower "Git") = "DEVELOPMENT_TOOLS".
Proof. split; reflexivity. Qed.

(** C4, as stated, fails: "Git" is OTHER while its lower-case form "git" is
    DEVELOPMENT_TOOLS. *)
Lemma categorize_Git_differs :
  categorize "Git" ≠ categorize (Py.lower "Git").
Proof. by vm_compute. Qed.

(** C4, amended.  The rules that look for a substring do not depend on the
    case of the name, but rule 3 compares the name as it is written with the
    six tool names.  So [categorize] gives a name and its lower-case form the
    same category exactly when the name is one of the six tool names or its
    lower-case form is not. *)
Theorem categorize_lower_iff (pkg : string) :
  categorize pkg = categorize (Py.lower pkg)
  ↔ (Py.lower pkg ∈ development_tools → pkg ∈ development_tools).
Proof.
  rewrite !categorize_unfold, lower_idem.
  destruct (Py.contains "python" (Py.lower pkg)) eqn:Hpy; cbn [orb].
  { split; [|done]. intros _ Hlow.
    apply development_tools_plain in Hlow as (Hno & _). congruence. }
  destruct (Py.startswith pkg "python-") eqn:Hsw.
  { apply startswith_python in Hsw. congruence. }
  destruct (Py.startswith (Py.lower pkg) "python-") eqn:Hsw'.
  { apply startswith_python in Hsw'. rewrite lower_idem in Hsw'. congruence. }
  destruct (Py.contains "perl" (Py.lower pkg)) eqn:Hpl.
  { split; [|done]. intros _ Hlow.
    apply development_tools_plain in Hlow as (_ & Hno & _). congruence. }
  case_bool_decide as Hpkg.
  { rewrite (development_tools_lower pkg Hpkg).
    rewrite bool_decide_eq_true_2 by done. done. }
  case_bool_decide as Hlow.
  - apply development_tools_plain in Hlow as Hplain.
    destruct Hplain as (_ & _ & ->). split; [done|]. intros H. by apply H in Hlow.
  - done.
Qed.

Lemma categorize_lower_iff_witness :
  (Py.lower "Python-KDE-Tools" ∈ development_tools →
   "Python-KDE-Tools" ∈ development_tools)
  ∧ categorize "Python-KDE-Tools" = categorize (Py.lower "Python-KDE-Tools").
Proof.
  assert (Py.lower "Python-KDE-Tools" ∈ development_tools →
          "Python-KDE-Tools" ∈ development_tools) as H.
  { change (Py.lower "Python-KDE-Tools") with "python-kde-tools".
    unfold development_tools. intros H.
    repeat (apply elem_of_cons in H as [H|H]; [discriminate H|]).
    by apply elem_of_nil in H. }
  split; [exact H|].
  apply (proj2 (categorize_lower_iff "Python-KDE-Tools")). exact H.
Defined.

(** * The claims on the sample inputs *)

Lemma sample_order_enumerates : sample_order ≡ₚ elements sample_explicit.
Proof. apply (bool_decide_unpack _). by vm_compute. Qed.

Lemma sample_order_alt_enumerates :
  sample_order_alt ≡ₚ elements sample_explicit.
Proof. apply (bool_decide_unpack _). by vm_compute. Qed.

Lemma sample_order_rest_enumerates :
  sample_order_rest ≡ₚ elements (sample_explicit ∖ {["inkscape"]}).
Proof. apply (bool_decide_unpack _). by vm_compute. Qed.

Lemma python_is_explicit : "python" ∈ sample_explicit.
Proof. apply (bool_decide_unpack _). by vm_compute. Qed.

Lemma inkscape_lookup_failed : lookup_failed sample_pactree "inkscape".
Proof. by vm_compute. Qed.

Lemma dependency_map_entry_witness :
  sample_order ≡ₚ elements sample_explicit ∧ "python" ∈ sample_explicit
  ∧ Dict.get "python" (build_dependency_map sample_pactree sample_order)
    = Some ["inkscape"; "libreoffice-fresh"; "some-other-tool"; "inkscape"].
Proof.
  split; [exact sample_order_enumerates|]. split; [exact python_is_explicit|].
  apply (dependency_map_entry sample_explicit sample_pactree sample_order
           "python" sample_order_enumerates python_is_explicit).
  by vm_compute.
Defined.

Lemma dependency_keys_are_explicit_witness :
  sample_order ≡ₚ elements sample_explicit
  ∧ ("python" ≠ EmptyString ∧ "python" ∈ sample_explicit).
Proof.
  split; [exact sample_order_enumerates|].
  apply (dependency_keys_are_explicit sample_explicit sample_pactree
           sample_order sample_order_enumerates).
  exists 2. by vm_compute; set_solver.
Defined.

Lemma report_lists_shared_dependencies_witness :
  sample_order ≡ₚ elements sample_explicit
  ∧ listed "python" (report sample_explicit sample_pactree sample_order)
  ∧ ¬ listed "qt5-base" (report sample_explicit sample_pactree sample_order).
Proof.
  split; [exact sample_order_enumerates|]. split.
  - apply (report_lists_shared_dependencies sample_explicit sample_pactree
             sample_order "python" sample_order_enumerates).
    split; [exact python_is_explicit|]. exists "inkscape".
    split; apply (bool_decide_unpack _); by vm_compute.
  - apply (report_lists_shared_dependencies sample_explicit sample_pactree
             sample_order "qt5-base" sample_order_enumerates).
    by vm_compute.
Defined.

Lemma empty_explicit_set_empty_report_witness :
  [] ≡ₚ elements (∅ : gset string)
  ∧ report ∅ sample_pactree [] = [Preamble].
Proof.
  assert ([] ≡ₚ elements (∅ : gset string)) as H by (by rewrite elements_empty).
  split; [exact H|].
  apply (empty_explicit_set_empty_report sample_pactree [] H).
Defined.

Lemma report_sections_sorted_witness :
  sample_order ≡ₚ elements sample_explicit
  ∧ report sample_explicit sample_pactree sample_order
    = Preamble
      :: layout (categorized_report sample_explicit
                   (build_dependency_map sample_pactree sample_order)).
Proof.
  split; [exact sample_order_enumerates|].
  apply (report_sections_sorted sample_explicit sample_pactree sample_order
           sample_order_enumerates).
Defined.

Lemma report_deterministic_witness :
  sample_order ≡ₚ elements sample_explicit
  ∧ sample_order_alt ≡ₚ elements sample_explicit
  ∧ render (report sample_explicit sample_pactree sample_order)
    = render (report sample_explicit sample_pactree sample_order_alt).
Proof.
  split; [exact sample_order_enumerates|].
  split; [exact sample_order_alt_enumerates|].
  exact (proj1 (proj2
    (report_deterministic sample_explicit sample_pactree sample_order
       sample_order_alt sample_order_enumerates
       sample_order_alt_enumerates))).
Defined.

Lemma failed_lookup_is_absorbed_witness :
  lookup_failed sample_pactree "inkscape"
  ∧ sample_order ≡ₚ elements sample_explicit
  ∧ sample_order_rest ≡ₚ elements (sample_explicit ∖ {["inkscape"]})
  ∧ Dict.get "inkscape" (build_dependency_map sample_pactree sample_order)
    = None.
Proof.
  split; [exact inkscape_lookup_failed|].
  split; [exact sample_order_enumerates|].
  split; [exact sample_order_rest_enumerates|].
  apply (failed_lookup_is_absorbed sample_explicit sample_pactree sample_order
           sample_order_rest "inkscape" inkscape_lookup_failed
           sample_order_enumerates sample_order_rest_enumerates).
Defined.

(** * Further properties *)

(** ** Splitting and stripping *)

Lemma split_nonempty sep s : Py.split sep s ≠ [].
Proof.
  destruct s as [|c s]; simpl; [done|].
  case_bool_decide; [done|]. by destruct (Py.split sep s).
Qed.

Lemma split_no_sep sep s : sep ∉ chars s → Py.split sep s = [s].
Proof.
  unfold chars. induction s as [|c s IH]; simpl; [done|].
  intros [Hc Hs]%not_elem_of_cons. rewrite bool_decide_eq_false_2 by done.
  by rewrite IH.
Qed.

Lemma split_append_sep sep x r :
  sep ∉ chars x → Py.split sep (x +:+ String sep r) = x :: Py.split sep r.
Proof.
  unfold chars. induction x as [|c x IH]; simpl.
  - intros _. by rewrite bool_decide_eq_true_2.
  - intros [Hc Hx]%not_elem_of_cons.
    rewrite bool_decide_eq_false_2 by done. by rewrite IH.
Qed.

Lemma elem_of_split_no_sep sep s x : x ∈ Py.split sep s → sep ∉ chars x.
Proof.
  unfold chars. revert x. induction s as [|c s IH]; intros x; simpl.
  - intros ->%list_elem_of_singleton. apply not_elem_of_nil.
  - case_bool_decide as Hc.
    + intros [->|Hx]%elem_of_cons; [apply not_elem_of_nil|by apply IH].
    + destruct (Py.split sep s) as [|w ws] eqn:Hs.
      * intros ->%list_elem_of_singleton. simpl.
        apply not_elem_of_cons. split; [done|apply not_elem_of_nil].
      * intros [->|Hx]%elem_of_cons.
        -- simpl. apply not_elem_of_cons. split; [done|]. apply IH. left.
        -- apply IH. by right.
Qed.

Lemma chars_lstrip s c : c ∈ chars (Py.lstrip s) → c ∈ chars s.
Proof.
  unfold chars. induction s as [|a s IH]; simpl; [done|].
  destruct (Py.isspace a); [|done]. intros H. right. by apply IH.
Qed.

Lemma chars_rstrip s c : c ∈ chars (Py.rstrip s) → c ∈ chars s.
Proof.
  unfold chars. induction s as [|a s IH]; simpl; [done|].
  destruct (Py.rstrip s) as [|b r] eqn:Hr.
  - destruct (Py.isspace a); simpl; [by intros ?%elem_of_nil|].
    intros [->|?%elem_of_nil]%elem_of_cons; [left|done].
  - simpl. intros [->|H]%elem_of_cons; [left|]. right. by apply IH.
Qed.

Lemma chars_strip s c : c ∈ chars (Py.strip s) → c ∈ chars s.
Proof. unfold Py.strip. intros H%chars_rstrip. by apply chars_lstrip. Qed.

Lemma rstrip_idem s : Py.rstrip (Py.rstrip s) = Py.rstrip s.
Proof.
  induction s as [|c s IH]; [done|]. simpl.
  destruct (Py.rstrip s) as [|b r] eqn:Hr.
  - destruct (Py.isspace c) eqn:Hc; simpl; [done|]. by rewrite Hc.
  - simpl. simpl in IH. by rewrite IH.
Qed.

Lemma lstrip_head s :
  Py.lstrip s = EmptyString
  ∨ ∃ c r, Py.lstrip s = String c r ∧ Py.isspace c = false.
Proof.
  induction s as [|a s IH]; simpl; [by left|].
  destruct (Py.isspace a) eqn:Ha; [done|]. right. by exists a, s.
Qed.

Lemma rstrip_head c r :
  Py.isspace c = false → ∃ r', Py.rstrip (String c r) = String c r'.
Proof.
  intros Hc. simpl. destruct (Py.rstrip r); [|by eexists].
  rewrite Hc. by eexists.
Qed.

Lemma strip_idem s : Py.strip (Py.strip s) = Py.strip s.
Proof.
  unfold Py.strip. destruct (lstrip_head s) as [->|(c & r & -> & Hc)]; [done|].
  destruct (rstrip_head c r Hc) as [r' Hr']. rewrite Hr' at 1.
  simpl Py.lstrip. rewrite Hc, <- Hr'. apply rstrip_idem.
Qed.

Lemma rstrip_append_nl t : Py.rstrip (t +:+ nl) = Py.rstrip t.
Proof.
  induction t as [|c t IH]; [done|].
  rewrite append_cons. simpl. by rewrite IH.
Qed.

Lemma rstrip_append_fixed a b :
  b ≠ EmptyString → Py.rstrip b = b → Py.rstrip (a +:+ b) = a +:+ b.
Proof.
  intros Hb Hfix. induction a as [|c a IH]; [done|].
  rewrite append_cons. simpl. rewrite IH.
  destruct (a +:+ b) eqn:Hab; [|done].
  destruct a; [|done]. by destruct Hb.
Qed.

Lemma rstrip_plain s : plain_name s → Py.rstrip s = s.
Proof.
  unfold plain_name, chars. intros [Hne Hall].
  induction s as [|c s IH]; [done|]. simpl in *.
  apply Forall_cons in Hall as [Hc Hall].
  destruct s as [|b s]; simpl; [by rewrite Hc|].
  simpl in IH. by rewrite IH.
Qed.

Lemma plain_name_no_newline s : plain_name s → Py.newline ∉ chars s.
Proof.
  intros [_ Hall] Hin. by apply (proj1 (Forall_forall _ _) Hall) in Hin.
Qed.

Lemma lstrip_plain_head s r : plain_name s → Py.lstrip (s +:+ r) = s +:+ r.
Proof.
  unfold plain_name, chars. intros [Hne Hall].
  destruct s as [|c s]; [done|]. simpl in Hall.
  apply Forall_cons in Hall as [Hc _]. rewrite append_cons. simpl.
  by rewrite Hc.
Qed.

Lemma concat_lines_cons x y l :
  String.concat nl (x :: y :: l) = x +:+ nl +:+ String.concat nl (y :: l).
Proof. reflexivity. Qed.

Lemma concat_lines_fixed l :
  l ≠ [] → Forall plain_name l →
  String.concat nl l ≠ EmptyString
  ∧ Py.rstrip (String.concat nl l) = String.concat nl l.
Proof.
  intros Hne Hall. induction Hall as [|x l Hx Hall IH]; [done|]. clear Hne.
  destruct l as [|y l].
  - simpl. split; [apply Hx|]. by apply rstrip_plain.
  - destruct IH as (Hne & Hr); [done|]. rewrite concat_lines_cons. split.
    + destruct x; [by destruct Hx|done].
    + apply rstrip_append_fixed; [done|].
      change (nl +:+ String.concat nl (y :: l))
        with (String Py.newline (String.concat nl (y :: l))).
      by apply (rstrip_append_fixed (String Py.newline EmptyString)).
Qed.

Lemma split_concat_lines l :
  l ≠ [] → Forall (λ s, Py.newline ∉ chars s) l →
  Py.split Py.newline (String.concat nl l) = l.
Proof.
  intros Hne Hall. induction Hall as [|x l Hx Hall IH]; [done|]. clear Hne.
  destruct l as [|y l].
  - simpl. by apply split_no_sep.
  - rewrite concat_lines_cons.
    change (nl +:+ String.concat nl (y :: l))
      with (String Py.newline (String.concat nl (y :: l))).
    rewrite split_append_sep by done. by rewrite IH.
Qed.

(** ** Reading the explicit set *)

(** X1.  The set read at line 69 is never empty, whatever [pacman] prints,
    and none of its elements contains a line feed. *)
Theorem explicit_set_never_empty (stdout : string) :
  read_explicit_packages stdout ≠ ∅
  ∧ ∀ p, p ∈ read_explicit_packages stdout → Py.newline ∉ chars p.
Proof.
  unfold read_explicit_packages. split.
  - pose proof (split_nonempty Py.newline (Py.strip stdout)) as Hne.
    destruct (Py.split Py.newline (Py.strip stdout)) as [|x l]; [done|].
    intros Hempty.
    assert (x ∈ (list_to_set (x :: l) : gset string)) as Hx
      by (apply elem_of_list_to_set; left).
    rewrite Hempty in Hx. by apply not_elem_of_empty in Hx.
  - intros p Hp%elem_of_list_to_set. by apply elem_of_split_no_sep in Hp.
Qed.

(** X2.  When [pacman] prints names without white space, one per line, the
    set read at line 69 is exactly the set of these names. *)
Theorem read_printed_names (l : list string) :
  l ≠ [] → Forall plain_name l →
  read_explicit_packages (print_lines l) = list_to_set l.
Proof.
  intros Hne Hall. unfold read_explicit_packages, print_lines. f_equal.
  destruct (concat_lines_fixed l Hne Hall) as (Hc & Hr).
  assert (Py.strip (String.concat nl l +:+ nl) = String.concat nl l) as ->.
  { unfold Py.strip.
    assert (Py.lstrip (String.concat nl l +:+ nl) = String.concat nl l +:+ nl)
      as ->.
    { destruct l as [|x l]; [done|].
      apply Forall_cons in Hall as [Hx _]. destruct l as [|y l].
      - simpl String.concat. by apply lstrip_plain_head.
      - rewrite concat_lines_cons.
        assert (∀ a b c, (a +:+ b) +:+ c = a +:+ (b +:+ c)) as Hassoc.
        { clear. intros a b c. induction a as [|x a IH]; [done|].
          rewrite !append_cons. by rewrite IH. }
        rewrite Hassoc. by apply lstrip_plain_head. }
    by rewrite rstrip_append_nl. }
  apply split_concat_lines; [done|].
  eapply Forall_impl; [done|]. apply plain_name_no_newline.
Qed.

Lemma read_printed_names_witness :
  ["python"; "inkscape"] ≠ [] ∧ Forall plain_name ["python"; "inkscape"]
  ∧ read_explicit_packages (print_lines ["python"; "inkscape"])
    = list_to_set ["python"; "inkscape"].
Proof.
  assert (Forall plain_name ["python"; "inkscape"]) as H.
  { repeat constructor; done. }
  split; [done|]. split; [exact H|].
  by apply (read_printed_names ["python"; "inkscape"]).
Defined.

(** ** The dependency map *)

Lemma elem_of_raw_dependers pactree pkg x :
  x ∈ raw_dependers pactree pkg →
  ∃ stdout, pactree pkg = Completed 0 stdout
            ∧ x ∈ Py.split Py.newline (Py.strip stdout).
Proof.
  unfold raw_dependers. destruct (Py.truthy pkg); [|by intros ?%elem_of_nil].
  destruct (pactree pkg) as [rc out|]; [|by intros ?%elem_of_nil].
  destruct (rc =? 0)%Z eqn:Hrc; [|by intros ?%elem_of_nil].
  apply Z.eqb_eq in Hrc as ->. intros Hx. exists out. split; [done|].
  destruct (Py.split Py.newline (Py.strip out)); [done|]. by right.
Qed.

Lemma elem_of_kept_dependers pactree pkg d :
  d ∈ kept_dependers pactree pkg →
  d ≠ EmptyString ∧ d ≠ pkg ∧ Py.strip d = d ∧ Py.newline ∉ chars d.
Proof.
  unfold kept_dependers, clean_dependers.
  intros [[Hne Hpkg] (x & -> & Hx)%list_elem_of_fmap]%list_elem_of_filter.
  split; [done|]. split; [done|]. split; [apply strip_idem|].
  apply elem_of_raw_dependers in Hx as (out & _ & Hx).
  apply elem_of_split_no_sep in Hx. intros Hin. by apply chars_strip in Hin.
Qed.

Lemma get_entries_Some pactree order p ds :
  Dict.get p (entries pactree order) = Some ds →
  p ∈ order ∧ ds = kept_dependers pactree p ∧ ds ≠ [].
Proof.
  rewrite get_entries. destruct (decide (p ∈ order)); [|done].
  destruct (kept_dependers pactree p); simpl; [done|]. by intros [= <-].
Qed.

Lemma keys_entries_sublist pactree order :
  Dict.keys (entries pactree order) `sublist_of` order.
Proof. rewrite keys_entries. apply sublist_filter. Qed.

(** X3.  The dependency map is a well-formed dictionary whose keys follow the
    order in which the set was enumerated, and every depender stored in it is
    clean: not empty, not the package itself, without surrounding white space
    and without a line feed; no stored list is empty. *)
Theorem dependency_map_well_formed (S : gset string) pactree order :
  order ≡ₚ elements S →
  let dm := build_dependency_map pactree order in
  NoDup (Dict.keys dm)
  ∧ Dict.keys dm `sublist_of` order
  ∧ ∀ p ds, Dict.get p dm = Some ds →
      ds ≠ []
      ∧ ∀ d, d ∈ ds →
          d ≠ EmptyString ∧ d ≠ p ∧ Py.strip d = d ∧ Py.newline ∉ chars d.
Proof.
  intros Ho dm. pose proof (enumeration_NoDup S order Ho) as Hnd.
  unfold dm. rewrite build_dependency_map_spec by done.
  split; [by apply NoDup_keys_entries|]. split; [apply keys_entries_sublist|].
  intros p ds (_ & -> & Hne)%get_entries_Some. split; [done|].
  intros d. apply elem_of_kept_dependers.
Qed.

(** X4.  The first line of the output of [pactree] is never taken as a
    depender: when the stripped output has a single line, or is empty, the
    package gets no entry and is not listed in the report. *)
Theorem single_line_output_no_entry (S : gset string) pactree order p stdout :
  order ≡ₚ elements S →
  pactree p = Completed 0 stdout →
  Py.newline ∉ chars (Py.strip stdout) →
  Dict.get p (build_dependency_map pactree order) = None
  ∧ ¬ listed p (report S pactree order).
Proof.
  intros Ho Hp Hnl. pose proof (enumeration_NoDup S order Ho) as Hnd.
  assert (kept_dependers pactree p = []) as Hk.
  { unfold kept_dependers, raw_dependers. destruct (Py.truthy p); [|done].
    rewrite Hp. simpl. by rewrite split_no_sep. }
  assert (Dict.get p (build_dependency_map pactree order) = None) as Hg.
  { rewrite build_dependency_map_spec, get_entries, Hk by done.
    by destruct (decide _). }
  split; [done|]. intros Hl.
  rewrite report_spec, <- build_dependency_map_spec in Hl by done.
  apply listed_sections in Hl.
  - apply Hl. unfold explicit_dependers. by rewrite Hg.
  - rewrite build_dependency_map_spec by done. by apply NoDup_keys_entries.
Qed.

(** ** The dictionary of categories *)

Section dict_pairs.
Context {K V : Type} `{EqDecision K}.
Implicit Types (k : K) (v : V) (d : list (K * V)).

Lemma dict_keys_set k v d :
  Dict.keys (Dict.set k v d)
  = if decide (k ∈ Dict.keys d) then Dict.keys d else Dict.keys d ++ [k].
Proof.
  unfold Dict.keys. induction d as [|[k0 v0] d IH].
  - simpl. destruct (decide (k ∈ [])) as [Hin|]; [|done].
    by apply elem_of_nil in Hin.
  - rewrite fmap_cons. simpl Dict.set. simpl fst.
    destruct (decide (k = k0)) as [->|Hne].
    + rewrite fmap_cons. simpl fst.
      destruct (decide (k0 ∈ k0 :: d.*1)) as [|Hnin]; [done|].
      destruct Hnin. left.
    + rewrite fmap_cons, IH. simpl fst.
      destruct (decide (k ∈ d.*1)) as [Hin|Hnin];
        destruct (decide (k ∈ k0 :: d.*1)) as [Hin'|Hnin']; try done.
      * destruct Hnin'. by right.
      * by apply elem_of_cons in Hin' as [?|?].
Qed.

Lemma dict_set_NoDup k v d :
  NoDup (Dict.keys d) → NoDup (Dict.keys (Dict.set k v d)).
Proof.
  intros Hnd. rewrite dict_keys_set. destruct (decide _) as [|Hk]; [done|].
  apply NoDup_app. split; [done|]. split; [|apply NoDup_singleton].
  by intros x Hx ->%list_elem_of_singleton.
Qed.

Lemma dict_set_Forall_pair (Q : K * V → Prop) k v d :
  Forall Q d → Q (k, v) → Forall Q (Dict.set k v d).
Proof.
  intros Hd Hv. induction Hd as [|[k0 v0] d H0 Hd IH]; simpl.
  - by constructor.
  - destruct (decide (k = k0)) as [->|]; by constructor.
Qed.

Lemma dict_set_nonempty k v d : Dict.set k v d ≠ [].
Proof. destruct d as [|[k0 v0] d]; simpl; [done|]. by destruct (decide _). Qed.

Lemma dict_get_is_Some k d : k ∈ Dict.keys d → is_Some (Dict.get k d).
Proof.
  intros Hk. destruct (Dict.get k d) eqn:Hg; [done|].
  by apply dict_get_None in Hg.
Qed.
End dict_pairs.

(** What lines 136-142 keep true of [categories]: the keys of an inner
    dictionary are distinct and belong to the category, and the lists stored
    are not empty and hold explicit packages only. *)
Lemma group_dependency_invariant (S : gset string)
    (cats : list (string * list (string * list string))) item :
  NoDup (Dict.keys cats) ∧
  Forall (λ c, c.1 ∈ cat_order ∧ c.2 ≠ [] ∧ NoDup (Dict.keys c.2)
               ∧ Forall (λ e, categorize e.1 = c.1 ∧ e.2 ≠ []
                              ∧ Forall (λ d, d ∈ S) e.2) c.2) cats →
  NoDup (Dict.keys (group_dependency S cats item)) ∧
  Forall (λ c, c.1 ∈ cat_order ∧ c.2 ≠ [] ∧ NoDup (Dict.keys c.2)
               ∧ Forall (λ e, categorize e.1 = c.1 ∧ e.2 ≠ []
                              ∧ Forall (λ d, d ∈ S) e.2) c.2)
         (group_dependency S cats item).
Proof.
  intros [Hnd Hall]. destruct item as [dep ds]. unfold group_dependency.
  destruct (filter (λ d, d ∈ S) ds) as [|x xs] eqn:Hf; simpl; [done|].
  split; [by apply dict_set_NoDup|].
  apply dict_set_Forall_pair; [done|]. simpl.
  split; [apply categorize_in_cat_order|]. split; [apply dict_set_nonempty|].
  assert (NoDup (Dict.keys (default [] (Dict.get (categorize dep) cats)))
          ∧ Forall (λ e, categorize e.1 = categorize dep ∧ e.2 ≠ []
                         ∧ Forall (λ d, d ∈ S) e.2)
                   (default [] (Dict.get (categorize dep) cats))) as [Hk Hin].
  { destruct (Dict.get (categorize dep) cats) as [in_cat|] eqn:Hg; simpl.
    - apply dict_get_Some_elem_of in Hg.
      apply (proj1 (Forall_forall _ _) Hall) in Hg as (_ & _ & ? & ?).
      by split.
    - split; constructor. }
  split; [by apply dict_set_NoDup|].
  apply dict_set_Forall_pair; [done|]. simpl. split; [done|]. split; [done|].
  rewrite <- Hf. apply Forall_forall. by intros d [? _]%list_elem_of_filter.
Qed.

Lemma build_categories_invariant (S : gset string) dm :
  NoDup (Dict.keys (build_categories S dm)) ∧
  Forall (λ c, c.1 ∈ cat_order ∧ c.2 ≠ [] ∧ NoDup (Dict.keys c.2)
               ∧ Forall (λ e, categorize e.1 = c.1 ∧ e.2 ≠ []
                              ∧ Forall (λ d, d ∈ S) e.2) c.2)
         (build_categories S dm).
Proof.
  unfold build_categories.
  induction dm as [|item dm IH] using rev_ind.
  - split; constructor.
  - rewrite foldl_snoc. by apply group_dependency_invariant.
Qed.

(** X5.  [categories] is a well-formed dictionary of well-formed
    dictionaries, for every explicit set and every dependency map: its keys
    are distinct names of [cat_order], no inner dictionary is empty, the keys
    of an inner dictionary are distinct and belong to its category, and every
    stored list is a non-empty list of explicit packages. *)
Theorem categories_well_formed (S : gset string)
    (dm : list (string * list string)) :
  let categories := build_categories S dm in
  NoDup (Dict.keys categories)
  ∧ ∀ cat in_cat, Dict.get cat categories = Some in_cat →
      cat ∈ cat_order ∧ in_cat ≠ [] ∧ NoDup (Dict.keys in_cat)
      ∧ ∀ dep dependers, Dict.get dep in_cat = Some dependers →
          categorize dep = cat ∧ dependers ≠ []
          ∧ ∀ d, d ∈ dependers → d ∈ S.
Proof.
  intros categories. destruct (build_categories_invariant S dm) as [Hnd Hall].
  split; [done|]. intros cat in_cat Hg%dict_get_Some_elem_of.
  apply (proj1 (Forall_forall _ _) Hall) in Hg as (Hc & Hne & Hk & Hin).
  simpl in *. split; [done|]. split; [done|]. split; [done|].
  intros dep dependers Hd%dict_get_Some_elem_of.
  apply (proj1 (Forall_forall _ _) Hin) in Hd as (Hcat & Hne' & HS).
  simpl in *. split; [done|]. split; [done|].
  intros d. by apply (proj1 (Forall_forall _ _) HS).
Qed.

(** X6.  The two guards of the writing loop that skip an entry never fire on
    the dictionary built by lines 136-142: a category that is present is not
    empty (line 163), and every dependency of a category gets its line
    followed by at least one depender (line 177). *)
Theorem skip_guards_never_fire (S : gset string)
    (dm : list (string * list string)) cat in_cat :
  Dict.get cat (build_categories S dm) = Some in_cat →
  Py.nonempty in_cat = true
  ∧ ∀ dep, dep ∈ Py.sorted (Dict.keys in_cat) →
      ∃ d ds, write_dependency S in_cat dep
              = DependencyLine dep (length (d :: ds))
                :: DependerLine d :: (DependerLine <$> ds).
Proof.
  intros Hg%dict_get_Some_elem_of.
  destruct (build_categories_invariant S dm) as [_ Hall].
  apply (proj1 (Forall_forall _ _) Hall) in Hg as (_ & Hne & _ & Hin).
  simpl in *. split; [by destruct in_cat|].
  intros dep Hdep. rewrite elem_of_sorted in Hdep.
  apply dict_get_is_Some in Hdep as [dependers Hd].
  pose proof (dict_get_Some_elem_of _ _ _ Hd) as Hd'.
  apply (proj1 (Forall_forall _ _) Hin) in Hd' as (_ & Hne' & HS').
  simpl in *. pose proof (proj1 (Forall_forall _ _) HS') as HS.
  unfold write_dependency. rewrite Hd. simpl.
  rewrite filter_all.
  - destruct (Py.sorted_set dependers) as [|d ds] eqn:Hs.
    + by apply sorted_set_nil_inv in Hs.
    + by exists d, ds.
  - apply Forall_forall. intros d Hd'. rewrite elem_of_sorted_set in Hd'.
    by apply HS.
Qed.

(** ** What the report depends on *)

Lemma sorted_set_ext l1 l2 :
  (∀ x, x ∈ l1 ↔ x ∈ l2) → Py.sorted_set l1 = Py.sorted_set l2.
Proof.
  intros H. apply sorted_unique. apply NoDup_Permutation.
  - apply NoDup_remove_dups.
  - apply NoDup_remove_dups.
  - intros x. by rewrite !elem_of_remove_dups.
Qed.

Lemma nonempty_ext {A} (l1 l2 : list A) :
  (∀ x, x ∈ l1 ↔ x ∈ l2) → l1 ≠ [] ↔ l2 ≠ [].
Proof.
  intros H. split; intros Hne ->.
  - destruct l1 as [|x l1]; [done|].
    by apply (elem_of_nil x), H; left.
  - destruct l2 as [|x l2]; [done|].
    by apply (elem_of_nil x), H; left.
Qed.

Lemma section_lines_ext S dm1 dm2 cat :
  NoDup (Dict.keys dm1) → NoDup (Dict.keys dm2) →
  (∀ p d, d ∈ explicit_dependers S dm1 p ↔ d ∈ explicit_dependers S dm2 p) →
  section_lines S dm1 cat = section_lines S dm2 cat.
Proof.
  intros Hnd1 Hnd2 Hext. unfold section_lines.
  assert (retained S dm1 cat = retained S dm2 cat) as ->.
  { unfold retained. apply sorted_unique. apply NoDup_Permutation.
    - by apply NoDup_keys_in_category.
    - by apply NoDup_keys_in_category.
    - intros dep.
      pose proof (elem_of_retained S dm1 cat dep Hnd1) as H1.
      pose proof (elem_of_retained S dm2 cat dep Hnd2) as H2.
      unfold retained in H1, H2. rewrite elem_of_sorted in H1, H2.
      rewrite H1, H2.
      pose proof (nonempty_ext _ _ (Hext dep)) as Hne.
      split; intros [? ?]; (split; [done|]); by apply Hne. }
  destruct (retained S dm2 cat); [done|]. f_equal.
  apply list_bind_ext; [|done]. intros dep. unfold dependency_lines.
  by rewrite (sorted_set_ext _ _ (Hext dep)).
Qed.

Lemma elem_of_explicit_dependers_entries (S : gset string) pactree order p d :
  order ≡ₚ elements S →
  d ∈ explicit_dependers S (entries pactree order) p
  ↔ p ∈ S ∧ d ∈ S ∧ d ∈ kept_dependers pactree p.
Proof.
  intros Ho. unfold explicit_dependers.
  rewrite list_elem_of_filter, get_entries.
  destruct (decide (p ∈ order)) as [Hp|Hp].
  - rewrite default_some_nonempty.
    apply (enumeration_elem_of S order p Ho) in Hp.
    split; [by intros [? ?]|by intros (_ & ? & ?)].
  - simpl. split; [by intros [_ ?%elem_of_nil]|].
    intros (Hp' & _). by apply (enumeration_elem_of S order p Ho) in Hp'.
Qed.

Lemma listed_iff (S : gset string) pactree order dep :
  order ≡ₚ elements S →
  listed dep (report S pactree order)
  ↔ dep ∈ S ∧ ∃ d, d ∈ S ∧ d ∈ kept_dependers pactree dep.
Proof.
  intros Ho. pose proof (enumeration_NoDup S order Ho) as Hnd.
  rewrite report_spec by done.
  rewrite listed_sections by (by apply NoDup_keys_entries).
  split.
  - intros Hne.
    destruct (explicit_dependers S (entries pactree order) dep) as [|d l] eqn:He;
      [done|].
    assert (d ∈ explicit_dependers S (entries pactree order) dep) as Hd
      by (rewrite He; left).
    apply elem_of_explicit_dependers_entries in Hd as (? & ? & ?); [|done].
    split; [done|]. by exists d.
  - intros (Hdep & d & Hd & Hk) He.
    assert (d ∈ explicit_dependers S (entries pactree order) dep) as Hin
      by (by apply elem_of_explicit_dependers_entries).
    rewrite He in Hin. by apply elem_of_nil in Hin.
Qed.

(** X7.  The report depends on the answers of [pactree] only through the
    explicit packages each explicit package keeps as dependers: two runs whose
    answers agree on that write the same report, whatever else the outputs
    contain (other packages, repetitions, the order of the lines, blanks, a
    failure instead of an empty answer) and in whatever order the set is
    enumerated. *)
Theorem report_depends_on_explicit_dependers (S : gset string)
    pactree1 pactree2 order1 order2 :
  order1 ≡ₚ elements S → order2 ≡ₚ elements S →
  (∀ p d, p ∈ S → d ∈ S →
          d ∈ kept_dependers pactree1 p ↔ d ∈ kept_dependers pactree2 p) →
  report S pactree1 order1 = report S pactree2 order2.
Proof.
  intros Ho1 Ho2 Hext.
  pose proof (enumeration_NoDup S order1 Ho1) as Hnd1.
  pose proof (enumeration_NoDup S order2 Ho2) as Hnd2.
  rewrite !report_spec by done. f_equal.
  apply list_bind_ext; [|done]. intros cat.
  apply section_lines_ext; [by apply NoDup_keys_entries..|].
  intros p d. rewrite !elem_of_explicit_dependers_entries by done.
  split; intros (Hp & Hd & Hk); (split; [done|]; split; [done|]);
    by apply (Hext p d Hp Hd).
Qed.

(** X8.  The report grows with the explicit set: a dependency listed for an
    explicit set is still listed when more packages are explicitly
    installed, the answers of [pactree] being the same. *)
Theorem listed_monotone (S S' : gset string) pactree order order' dep :
  order ≡ₚ elements S → order' ≡ₚ elements S' → S ⊆ S' →
  listed dep (report S pactree order) → listed dep (report S' pactree order').
Proof.
  intros Ho Ho' Hsub. rewrite !listed_iff by done.
  intros (Hdep & d & Hd & Hk). split; [by apply Hsub|].
  exists d. split; [by apply Hsub|done].
Qed.

(** ** The edges of the report *)

Lemma NoDup_cat_order : NoDup cat_order.
Proof. apply (bool_decide_unpack _). by vm_compute. Qed.

Lemma dependency_names_categorized_report S dm :
  dependency_names (categorized_report S dm) = cat_order ≫= retained S dm.
Proof.
  unfold dependency_names, categorized_report.
  induction cat_order as [|cat cats IH]; [done|].
  rewrite !bind_cons, bind_app, IH. f_equal.
  destruct (retained S dm cat) as [|k ks] eqn:Hr; [done|].
  rewrite bind_singleton. cbn [snd]. by rewrite fmap_fst_pair.
Qed.

Lemma elem_of_dependency_names S dm dep :
  NoDup (Dict.keys dm) →
  dep ∈ dependency_names (categorized_report S dm)
  ↔ explicit_dependers S dm dep ≠ [].
Proof.
  intros Hnd. rewrite dependency_names_categorized_report, list_elem_of_bind.
  split.
  - intros (cat & Hin & _). by apply elem_of_retained in Hin as [_ ?].
  - intros Hne. exists (categorize dep).
    split; [by apply elem_of_retained|apply categorize_in_cat_order].
Qed.

Lemma NoDup_dependency_names S dm :
  NoDup (Dict.keys dm) → NoDup (dependency_names (categorized_report S dm)).
Proof.
  intros Hnd. rewrite dependency_names_categorized_report.
  apply NoDup_bind; [| |apply NoDup_cat_order].
  - intros c1 c2 dep _ _ H1 H2.
    apply elem_of_retained in H1 as [<- _]; [|done].
    by apply elem_of_retained in H2 as [<- _].
  - intros cat _. unfold retained. rewrite sorted_perm.
    by apply NoDup_keys_in_category.
Qed.

Lemma elem_of_section_dependency S dm s d :
  s ∈ categorized_report S dm → d ∈ s.2 →
  d.1 ∈ retained S dm s.1
  ∧ d.2 = Py.sorted_set (explicit_dependers S dm d.1).
Proof.
  intros [_ Hs]%elem_of_categorized_report Hd. rewrite Hs in Hd.
  by apply list_elem_of_fmap in Hd as (dep & -> & Hdep).
Qed.

(** X9.  Every edge written in the report joins two different explicit
    packages: under a dependency [dep] of the explicit set, every depender is
    a non-empty name of the explicit set other than [dep]. *)
Theorem report_edges_are_explicit (S : gset string) pactree order :
  order ≡ₚ elements S →
  let secs :=
    categorized_report S (build_dependency_map pactree order) in
  report S pactree order = Preamble :: layout secs
  ∧ Forall (λ s, Forall (λ d,
      d.1 ∈ S ∧ Forall (λ x, x ∈ S ∧ x ≠ EmptyString ∧ x ≠ d.1) d.2) s.2) secs.
Proof.
  intros Ho secs. pose proof (enumeration_NoDup S order Ho) as Hnd.
  unfold secs. rewrite build_dependency_map_spec by done.
  split.
  - rewrite layout_categorized_report. by apply report_spec.
  - apply Forall_forall. intros s Hs. apply Forall_forall. intros d Hd.
    destruct (elem_of_section_dependency _ _ s d Hs Hd) as [Hdep ->].
    apply elem_of_retained in Hdep as [_ Hne]; [|by apply NoDup_keys_entries].
    split.
    + apply explicit_dependers_key in Hne.
      by apply (keys_entries_explicit S pactree order) in Hne as [_ ?].
    + apply Forall_forall. intros x Hx. rewrite elem_of_sorted_set in Hx.
      apply elem_of_explicit_dependers_entries in Hx as (_ & HxS & Hk); [|done].
      apply elem_of_kept_dependers in Hk as (? & ? & _). done.
Qed.

(** X10.  No dependency is written twice: the names of the dependencies of
    the report, over all its sections, are pairwise different. *)
Theorem report_lists_each_dependency_once (S : gset string) pactree order :
  order ≡ₚ elements S →
  let secs :=
    categorized_report S (build_dependency_map pactree order) in
  report S pactree order = Preamble :: layout secs
  ∧ NoDup (dependency_names secs)
  ∧ ∀ dep, dep ∈ dependency_names secs ↔ listed dep (report S pactree order).
Proof.
  intros Ho secs. pose proof (enumeration_NoDup S order Ho) as Hnd.
  assert (NoDup (Dict.keys (entries pactree order))) as Hk
    by (by apply NoDup_keys_entries).
  unfold secs. rewrite build_dependency_map_spec, report_spec by done.
  split; [by rewrite layout_categorized_report|].
  split; [by apply NoDup_dependency_names|].
  intros dep. by rewrite elem_of_dependency_names, listed_sections.
Qed.

(** X11.  The number of dependers shown on a dependency line is the number of
    different explicit dependers of the dependency; it is at least one and
    less than the number of explicit packages. *)
Theorem depender_count_bounds (S : gset string) pactree order dep count :
  order ≡ₚ elements S →
  DependencyLine dep count ∈ report S pactree order →
  count
  = length (remove_dups
      (explicit_dependers S (build_dependency_map pactree order) dep))
  ∧ 0 < count < size S.
Proof.
  intros Ho Hin. pose proof (enumeration_NoDup S order Ho) as Hnd.
  rewrite report_spec in Hin by done.
  rewrite build_dependency_map_spec by done.
  apply elem_of_cons in Hin as [[=]|Hin].
  apply list_elem_of_bind in Hin as (cat & Hin & _).
  apply elem_of_section_lines in Hin as (_ & Hne & ->);
    [|by apply NoDup_keys_entries].
  set (E := explicit_dependers S (entries pactree order) dep) in *.
  unfold Py.sorted_set. rewrite length_sorted. split; [done|]. split.
  - destruct E as [|d l]; [done|]. simpl.
    destruct (decide_rel _ d l); [|simpl; lia].
    destruct (remove_dups l) as [|y l'] eqn:Hl; [|simpl; lia].
    assert (d ∈ remove_dups l) as Hd by (by rewrite elem_of_remove_dups).
    rewrite Hl in Hd. by apply elem_of_nil in Hd.
  - assert (dep :: remove_dups E ⊆+ elements S) as Hsub.
    { apply NoDup_submseteq.
      - apply NoDup_cons. split; [|apply NoDup_remove_dups].
        intros Hd. rewrite elem_of_remove_dups in Hd. unfold E in Hd.
        apply elem_of_explicit_dependers_entries in Hd as (_ & _ & Hk); [|done].
        by apply elem_of_kept_dependers in Hk as (_ & ? & _).
      - intros x [->|Hx]%elem_of_cons; apply elem_of_elements.
        + apply explicit_dependers_key in Hne.
          by apply (keys_entries_explicit S pactree order) in Hne as [_ ?].
        + rewrite elem_of_remove_dups in Hx. unfold E in Hx.
          by apply elem_of_explicit_dependers_entries in Hx as (_ & ? & _). }
    apply submseteq_length in Hsub. simpl in Hsub.
    unfold size, set_size. simpl. lia.
Qed.

(** ** The counter and the number of line 96 *)

Lemma count_package_step c printed p :
  count_package (c, printed) p
  = if Py.truthy p then
      (c + 1, printed ++ filter (λ k, k mod 50 = 0) [c + 1])
    else (c, printed).
Proof.
  unfold count_package. destruct (Py.truthy p); cbn [negb]; [|done].
  destruct ((c + 1) mod 50 =? 0)%nat eqn:Hz.
  - apply Nat.eqb_eq in Hz. by rewrite filter_cons_True.
  - apply Nat.eqb_neq in Hz. rewrite filter_cons_False by done.
    by rewrite filter_nil, app_nil_r.
Qed.

Lemma count_packages_from order : ∀ c printed,
  foldl count_package (c, printed) order
  = (c + length (lookups order),
     printed ++ filter (λ k, k mod 50 = 0)
                       (seq (c + 1) (length (lookups order)))).
Proof.
  unfold lookups. induction order as [|p order IH]; intros c printed.
  - cbn [foldl]. rewrite filter_nil. cbn [length seq].
    by rewrite filter_nil, Nat.add_0_r, app_nil_r.
  - cbn [foldl]. rewrite count_package_step.
    destruct (Py.truthy p) eqn:Ht.
    + apply truthy_spec in Ht. rewrite IH.
      rewrite (filter_cons_True (λ pkg, pkg ≠ EmptyString)) by done.
      cbn [length seq]. rewrite <- app_assoc, <- filter_app.
      replace (c + 1 + 1) with (S (c + 1)) by lia.
      f_equal. lia.
    + rewrite IH. rewrite (filter_cons_False (λ pkg, pkg ≠ EmptyString)); [done|].
      intros Hne. apply truthy_spec in Hne. congruence.
Qed.

(** X12.  The counter counts the packages looked up: when the loop ends
    [count] is the number of calls of [pactree], which is the number of
    non-empty names of the explicit set, and the progress message has been
    shown exactly for the multiples of 50 up to [count], in increasing
    order. *)
Theorem counter_counts_lookups (S : gset string) pactree order :
  order ≡ₚ elements S →
  (count_packages order).1 = length (queried (analyze pactree order))
  ∧ (count_packages order).1 = size (S ∖ {[EmptyString]})
  ∧ (count_packages order).2
    = filter (λ k, k mod 50 = 0) (seq 1 (count_packages order).1).
Proof.
  intros Ho. pose proof (enumeration_NoDup S order Ho) as Hnd.
  unfold count_packages. rewrite count_packages_from.
  rewrite analyze_spec by done. simpl. split; [done|]. split; [|done].
  unfold size, set_size. simpl. apply Permutation_length.
  apply NoDup_Permutation.
  - unfold lookups. by apply NoDup_filter.
  - apply NoDup_elements.
  - intros p. unfold lookups.
    rewrite list_elem_of_filter, elem_of_elements, elem_of_difference.
    rewrite (enumeration_elem_of S order p Ho), elem_of_singleton. tauto.
Qed.

Lemma length_filter_eq {A} (P : A → Prop) `{∀ x, Decision (P x)} (l : list A) :
  length (filter P l) = length l ↔ Forall P l.
Proof.
  induction l as [|x l IH]; simpl.
  - split; [constructor|done].
  - destruct (decide (P x)) as [Hx|Hx].
    + rewrite filter_cons_True by done. simpl. rewrite Forall_cons.
      split.
      * intros [= Hl]. split; [done|]. by apply IH.
      * intros [_ Hl]. f_equal. by apply IH.
    + rewrite filter_cons_False by done. split.
      * intros Hl. pose proof (length_filter P l). lia.
      * intros [? _]%Forall_cons. done.
Qed.

(** X13.  The number printed at line 96, the size of [dependency_map], counts
    the packages with at least one recorded depender, explicit or not: it is
    at least the number of dependencies written in the report and at most the
    number of packages looked up, and it equals the number of dependencies of
    the report exactly when every key of the map has an explicit depender. *)
Theorem found_count_bounds (S : gset string) pactree order :
  order ≡ₚ elements S →
  let dm := build_dependency_map pactree order in
  let written := dependency_names (categorized_report S dm) in
  length written ≤ length dm
  ∧ length dm ≤ length (queried (analyze pactree order))
  ∧ (length written = length dm
     ↔ ∀ k, k ∈ Dict.keys dm → explicit_dependers S dm k ≠ []).
Proof.
  intros Ho dm written. pose proof (enumeration_NoDup S order Ho) as Hnd.
  assert (NoDup (Dict.keys dm)) as Hk.
  { unfold dm. rewrite build_dependency_map_spec by done.
    by apply NoDup_keys_entries. }
  assert (written
          ≡ₚ filter (λ k, explicit_dependers S dm k ≠ []) (Dict.keys dm))
    as Hw.
  { apply NoDup_Permutation.
    - by apply NoDup_dependency_names.
    - by apply NoDup_filter.
    - intros dep. unfold written.
      rewrite elem_of_dependency_names, list_elem_of_filter by done.
      split; [|by intros [? _]]. intros Hne. split; [done|].
      by apply explicit_dependers_key in Hne. }
  assert (length dm = length (Dict.keys dm)) as Hlen
    by (unfold Dict.keys; by rewrite length_fmap).
  rewrite Hw, Hlen. split; [apply length_filter|]. split.
  - unfold dm. rewrite build_dependency_map_spec, analyze_spec by done.
    simpl. rewrite keys_entries. unfold lookups.
    apply submseteq_length, NoDup_submseteq; [by apply NoDup_filter|].
    intros p [Hp Hin]%list_elem_of_filter. apply list_elem_of_filter.
    split; [|done]. intros ->. by apply Hp.
  - rewrite length_filter_eq, Forall_forall. done.
Qed.

(** ** More on the categorisation *)

Ltac rest_cases :=
  unfold categorize_rest;
  repeat match goal with
    | |- context [Py.contains ?s ?t] =>
        destruct (Py.contains s t); cbn [orb]; try discriminate
    end.

Lemma categorize_rest_not_first low :
  categorize_rest low ≠ "PYTHON" ∧ categorize_rest low ≠ "PERL"
  ∧ categorize_rest low ≠ "DEVELOPMENT_TOOLS".
Proof. repeat split; rest_cases. Qed.

(** X14.  A package is classified DEVELOPMENT_TOOLS exactly when its name is,
    letter for letter, one of the six tool names. *)
Theorem development_tools_iff (pkg : string) :
  categorize pkg = "DEVELOPMENT_TOOLS" ↔ pkg ∈ development_tools.
Proof.
  split.
  - rewrite categorize_unfold.
    destruct (_ || _); [done|]. destruct (Py.contains "perl" _); [done|].
    case_bool_decide as Hin; [done|].
    intros Hr. by apply categorize_rest_not_first in Hr.
  - intros H. tool_cases H; reflexivity.
Qed.

Lemma categorize_python pkg :
  categorize pkg = "PYTHON" ↔ Py.contains "python" (Py.lower pkg) = true.
Proof.
  rewrite categorize_unfold.
  destruct (Py.contains "python" (Py.lower pkg)) eqn:Hpy; cbn [orb]; [done|].
  destruct (Py.startswith pkg "python-") eqn:Hsw.
  { apply startswith_python in Hsw. congruence. }
  split; [|done].
  destruct (Py.contains "perl" _); [done|]. case_bool_decide as Hin; [done|].
  intros Hr. by apply categorize_rest_not_first in Hr.
Qed.

(** X15.  A package is classified PYTHON exactly when its lower-case name
    contains "python": the test on the prefix "python-" of line 100 never
    decides. *)
Theorem python_iff (pkg : string) :
  (categorize pkg = "PYTHON" ↔ Py.contains "python" (Py.lower pkg) = true)
  ∧ (Py.startswith pkg "python-" = true →
     Py.contains "python" (Py.lower pkg) = true).
Proof. split; [apply categorize_python|apply startswith_python]. Qed.

(** X16.  The values of [categorize] are exactly the names of [cat_order]:
    every package falls in a category that the writing loop visits, and every
    category of [cat_order] is the category of some package. *)
Theorem categorize_range (cat : string) :
  (∃ pkg, categorize pkg = cat) ↔ cat ∈ cat_order.
Proof.
  split.
  - intros [pkg <-]. apply categorize_in_cat_order.
  - intros Hcat.
    assert (cat_order
            = categorize <$>
                ["python"; "perl"; "git"; "bluez"; "alsa-lib"; "cryptsetup";
                 "xdg-utils"; "kio"; "gtk3"; "gnome-keyring"; "jdk-openjdk";
                 "openxr"; "mtools"; "systemd"; "texinfo"; "unzip"; "linux"])
      as Heq by reflexivity.
    rewrite Heq in Hcat.
    apply list_elem_of_fmap in Hcat as (pkg & -> & _). by exists pkg.
Qed.

Lemma append_assoc a b c : (a +:+ b) +:+ c = a +:+ (b +:+ c).
Proof.
  induction a as [|x a IH]; [done|]. rewrite !append_cons. by rewrite IH.
Qed.

Lemma contains_cons sub c s :
  Py.contains sub (String c s)
  = Py.startswith (String c s) sub || Py.contains sub s.
Proof. reflexivity. Qed.

Lemma contains_append_l sub a s :
  Py.contains sub s = true → Py.contains sub (a +:+ s) = true.
Proof.
  intros H. induction a as [|c a IH]; [done|].
  rewrite append_cons, contains_cons, IH. apply orb_true_r.
Qed.

Lemma contains_append_r sub s b :
  Py.contains sub s = true → Py.contains sub (s +:+ b) = true.
Proof.
  induction s as [|c s IH]; intros H.
  - assert (Py.startswith EmptyString sub = true) as [r Hr]%startswith_inv.
    { destruct sub; [done|]. simpl in H. discriminate H. }
    destruct sub; [|done]. by destruct b.
  - rewrite contains_cons in H. apply orb_prop in H as [Hs|Hs].
    + apply startswith_inv in Hs as [r Hr]. rewrite Hr, append_assoc.
      apply contains_startswith, startswith_append.
    + rewrite append_cons, contains_cons, IH by done. apply orb_true_r.
Qed.

(** X17.  PYTHON wins over every addition to the name: a name that contains,
    anywhere, a name classified PYTHON is classified PYTHON. *)
Theorem python_absorbs (before pkg after : string) :
  categorize pkg = "PYTHON" →
  categorize (before +:+ pkg +:+ after) = "PYTHON".
Proof.
  rewrite !categorize_python, !lower_append. intros H.
  by apply contains_append_l, contains_append_r.
Qed.

(** * The further properties on the sample inputs *)

Lemma sample_small_order_enumerates :
  sample_small_order ≡ₚ elements sample_small.
Proof. apply (bool_decide_unpack _). by vm_compute. Qed.

Lemma sample_small_subseteq : sample_small ⊆ sample_explicit.
Proof. apply (bool_decide_unpack _). by vm_compute. Qed.

Lemma sample_pactrees_agree p d :
  p ∈ sample_explicit → d ∈ sample_explicit →
  d ∈ kept_dependers sample_pactree p ↔ d ∈ kept_dependers sample_pactree_alt p.
Proof.
  unfold sample_explicit. rewrite !elem_of_union, !elem_of_singleton.
  intros [[[->| ->]| ->]| ->] [[[->| ->]| ->]| ->];
    apply (bool_decide_unpack _); by vm_compute.
Qed.

Lemma dependency_map_well_formed_witness :
  sample_order ≡ₚ elements sample_explicit
  ∧ NoDup (Dict.keys (build_dependency_map sample_pactree sample_order)).
Proof.
  split; [exact sample_order_enumerates|].
  exact (proj1 (dependency_map_well_formed sample_explicit sample_pactree
                  sample_order sample_order_enumerates)).
Defined.

Lemma single_line_output_no_entry_witness :
  sample_order ≡ₚ elements sample_explicit
  ∧ sample_pactree_alt "inkscape" = Completed 0 (print_lines ["inkscape"])
  ∧ (Py.newline ∉ chars (Py.strip (print_lines ["inkscape"])))
  ∧ Dict.get "inkscape" (build_dependency_map sample_pactree_alt sample_order)
    = None.
Proof.
  assert (Py.newline ∉ chars (Py.strip (print_lines ["inkscape"]))) as H
    by (apply (bool_decide_unpack _); by vm_compute).
  split; [exact sample_order_enumerates|]. split; [reflexivity|].
  split; [exact H|].
  exact (proj1 (single_line_output_no_entry sample_explicit sample_pactree_alt
                  sample_order "inkscape" (print_lines ["inkscape"])
                  sample_order_enumerates eq_refl H)).
Defined.

Lemma skip_guards_never_fire_witness :
  Dict.get "PYTHON"
    (build_categories sample_explicit
       (build_dependency_map sample_pactree sample_order))
  = Some [("python", ["inkscape"; "libreoffice-fresh"; "inkscape"])]
  ∧ Py.nonempty [("python", ["inkscape"; "libreoffice-fresh"; "inkscape"])]
    = true.
Proof.
  assert (Dict.get "PYTHON"
    (build_categories sample_explicit
       (build_dependency_map sample_pactree sample_order))
    = Some [("python", ["inkscape"; "libreoffice-fresh"; "inkscape"])]) as H
    by (by vm_compute).
  split; [exact H|].
  exact (proj1 (skip_guards_never_fire sample_explicit
                  (build_dependency_map sample_pactree sample_order)
                  "PYTHON" _ H)).
Defined.

Lemma report_depends_on_explicit_dependers_witness :
  sample_order ≡ₚ elements sample_explicit
  ∧ sample_order_alt ≡ₚ elements sample_explicit
  ∧ report sample_explicit sample_pactree sample_order
    = report sample_explicit sample_pactree_alt sample_order_alt.
Proof.
  split; [exact sample_order_enumerates|].
  split; [exact sample_order_alt_enumerates|].
  exact (report_depends_on_explicit_dependers sample_explicit sample_pactree
           sample_pactree_alt sample_order sample_order_alt
           sample_order_enumerates sample_order_alt_enumerates
           sample_pactrees_agree).
Defined.

Lemma listed_monotone_witness :
  sample_small_order ≡ₚ elements sample_small
  ∧ sample_order ≡ₚ elements sample_explicit
  ∧ sample_small ⊆ sample_explicit
  ∧ listed "python" (report sample_small sample_pactree sample_small_order)
  ∧ listed "python" (report sample_explicit sample_pactree sample_order).
Proof.
  assert (listed "python"
            (report sample_small sample_pactree sample_small_order)) as H.
  { exists 1. vm_compute. repeat constructor. }
  split; [exact sample_small_order_enumerates|].
  split; [exact sample_order_enumerates|].
  split; [exact sample_small_subseteq|]. split; [exact H|].
  exact (listed_monotone sample_small sample_explicit sample_pactree
           sample_small_order sample_order "python"
           sample_small_order_enumerates sample_order_enumerates
           sample_small_subseteq H).
Defined.

Lemma report_edges_are_explicit_witness :
  sample_order ≡ₚ elements sample_explicit
  ∧ report sample_explicit sample_pactree sample_order
    = Preamble
      :: layout (categorized_report sample_explicit
                   (build_dependency_map sample_pactree sample_order)).
Proof.
  split; [exact sample_order_enumerates|].
  exact (proj1 (report_edges_are_explicit sample_explicit sample_pactree
                  sample_order sample_order_enumerates)).
Defined.

Lemma report_lists_each_dependency_once_witness :
  sample_order ≡ₚ elements sample_explicit
  ∧ NoDup (dependency_names
             (categorized_report sample_explicit
                (build_dependency_map sample_pactree sample_order))).
Proof.
  split; [exact sample_order_enumerates|].
  exact (proj1 (proj2
    (report_lists_each_dependency_once sample_explicit sample_pactree
       sample_order sample_order_enumerates))).
Defined.

Lemma depender_count_bounds_witness :
  sample_order ≡ₚ elements sample_explicit
  ∧ DependencyLine "python" 2
      ∈ report sample_explicit sample_pactree sample_order
  ∧ 0 < 2 < size sample_explicit.
Proof.
  assert (DependencyLine "python" 2
            ∈ report sample_explicit sample_pactree sample_order) as H
    by (vm_compute; repeat constructor).
  split; [exact sample_order_enumerates|]. split; [exact H|].
  exact (proj2 (depender_count_bounds sample_explicit sample_pactree
                  sample_order "python" 2 sample_order_enumerates H)).
Defined.

Lemma counter_counts_lookups_witness :
  sample_order ≡ₚ elements sample_explicit
  ∧ (count_packages sample_order).1
    = length (queried (analyze sample_pactree sample_order)).
Proof.
  split; [exact sample_order_enumerates|].
  exact (proj1 (counter_counts_lookups sample_explicit sample_pactree
                  sample_order sample_order_enumerates)).
Defined.

Lemma found_count_bounds_witness :
  sample_order ≡ₚ elements sample_explicit
  ∧ length (dependency_names
              (categorized_report sample_explicit
                 (build_dependency_map sample_pactree sample_order)))
    ≤ length (build_dependency_map sample_pactree sample_order).
Proof.
  split; [exact sample_order_enumerates|].
  exact (proj1 (found_count_bounds sample_explicit sample_pactree
                  sample_order sample_order_enumerates)).
Defined.

Lemma python_absorbs_witness :
  categorize "python" = "PYTHON"
  ∧ categorize ("lib32-" +:+ "python" +:+ "-kde") = "PYTHON".
Proof.
  split; [reflexivity|].
  exact (python_absorbs "lib32-" "python" "-kde" eq_refl).
Defined.

(** On the sample the number of line 96 is 2 while the report holds one
    dependency: "qt5-base" is counted for its depender "vlc", which is not
    explicitly installed. *)
Example sample_found_count :
  length (build_dependency_map sample_pactree sample_order) = 2
  ∧ dependency_names
      (categorized_report sample_explicit
         (build_dependency_map sample_pactree sample_order)) = ["python"].
Proof. split; by vm_compute. Qed.
